(** * plugins/utils.py: provider routing, owner switches, status report, image proxy

    A shallow embedding of [src/plugins/utils.py].  Python text is a list
    of Unicode code points, Python integers are [Z], the four module
    globals are a record threaded through a state-and-exception monad in
    which a raised exception keeps the mutations made before it.  The
    remote services and the library decoders are an explicit environment
    whose answers may depend on everything that happened before. *)

From Stdlib Require Import List ZArith NArith Bool Lia String Ascii DecimalString.
From Stdlib Require Import DecimalPos DecimalZ.
Import ListNotations.

Local Open Scope Z_scope.
Set Warnings "-register-all".

(* ===================================================================== *)
(** ** Python text *)
(* ===================================================================== *)

(** A Python [str] is a sequence of code points; [len] counts code points. *)
Definition codepoint : Type := N.
Definition pystr : Type := list codepoint.

(** An ASCII literal of the source. *)
Definition lit (s : string) : pystr := map N_of_ascii (list_ascii_of_string s).

Definition pystr_eqb (a b : pystr) : bool :=
  if list_eq_dec N.eq_dec a b then true else false.

Definition len (s : pystr) : Z := Z.of_nat (List.length s).

(** [str.isspace] on one code point: the Unicode whitespace that [split]
    and [strip] act on. *)
Definition isspace (c : codepoint) : bool :=
  (((9 <=? c) && (c <=? 13)) || ((28 <=? c) && (c <=? 32))
   || (c =? 133) || (c =? 160) || (c =? 5760)
   || ((8192 <=? c) && (c <=? 8202))
   || (c =? 8232) || (c =? 8233) || (c =? 8239) || (c =? 8287)
   || (c =? 12288))%N.

Fixpoint lstrip (s : pystr) : pystr :=
  match s with
  | c :: s' => if isspace c then lstrip s' else s
  | [] => []
  end.

Definition rstrip (s : pystr) : pystr := rev (lstrip (rev s)).

(** [s.strip()] *)
Definition strip (s : pystr) : pystr := rstrip (lstrip s).

(** [s.split()] without arguments: maximal runs of non-whitespace, in
    order; [cur] holds the current run reversed. *)
Fixpoint split_from (cur : pystr) (s : pystr) : list pystr :=
  match s with
  | [] => match cur with [] => [] | _ => [rev cur] end
  | c :: s' =>
      if isspace c
      then match cur with
           | [] => split_from [] s'
           | _ => rev cur :: split_from [] s'
           end
      else split_from (c :: cur) s'
  end.

Definition split (s : pystr) : list pystr := split_from [] s.

(** [s.startswith(p)] *)
Fixpoint startswith (p s : pystr) : bool :=
  match p, s with
  | [], _ => true
  | a :: p', b :: s' => (a =? b)%N && startswith p' s'
  | _ :: _, [] => false
  end.

(** [needle in hay] on two strings *)
Fixpoint contains (needle hay : pystr) : bool :=
  startswith needle hay
  || match hay with
     | [] => false
     | _ :: hay' => contains needle hay'
     end.

(** [sep.join(l)] *)
Fixpoint join (sep : pystr) (l : list pystr) : pystr :=
  match l with
  | [] => []
  | [x] => x
  | x :: l' => x ++ sep ++ join sep l'
  end.

(** Number of positions of [hay] at which [needle] starts. *)
Fixpoint occurrences (needle hay : pystr) : nat :=
  ((if startswith needle hay then 1 else 0)
   + match hay with
     | [] => 0
     | _ :: hay' => occurrences needle hay'
     end)%nat.

(** The pieces of [s] between occurrences of the code point [sep]
    ([s.split(sep)] for a one-character separator). *)
Fixpoint split_on (sep : codepoint) (s : pystr) : list pystr :=
  match s with
  | [] => [[]]
  | c :: s' =>
      if (c =? sep)%N then [] :: split_on sep s'
      else match split_on sep s' with
           | [] => [[c]]
           | piece :: rest => (c :: piece) :: rest
           end
  end.

Definition newline : codepoint := 10%N.
Definition lines (s : pystr) : list pystr := split_on newline s.

(** [str(z)] for an [int]: decimal digits, a minus sign when negative. *)
Definition str_int (z : Z) : pystr := lit (NilZero.string_of_int (Z.to_int z)).

(** [int(s)] on a plain run of ASCII digits, [None] (a [ValueError])
    elsewhere.  The program only ever applies [int] to "1" or "2". *)
Definition digit_value (c : codepoint) : option Z :=
  if ((48 <=? c) && (c <=? 57))%N then Some (Z.of_N c - 48) else None.

Fixpoint int_digits (acc : Z) (s : pystr) : option Z :=
  match s with
  | [] => Some acc
  | c :: s' =>
      match digit_value c with
      | Some d => int_digits (10 * acc + d) s'
      | None => None
      end
  end.

Definition int_of_str (s : pystr) : option Z :=
  match s with
  | [] => None
  | _ => int_digits 0 s
  end.

Definition nl : pystr := [newline].

(* ===================================================================== *)
(** ** Python values, exceptions, outcomes *)
(* ===================================================================== *)

(** What [json()] and the completion client hand back: the JSON fragment
    of Python's values.  A [dict] is the list of its items. *)
Inductive value : Type :=
| VNone
| VBool (b : bool)
| VInt (z : Z)
| VFloat (repr : pystr)
| VStr (s : pystr)
| VList (items : list value)
| VDict (items : list (pystr * value)).

(** [dict[str, str]]: a chat message, a search hit. *)
Definition message : Type := list (pystr * pystr).

(** The exceptions that reach the handlers of this module; all of them
    are subclasses of [Exception]. *)
Inductive exn : Type :=
| KeyError (key : value)
| IndexError
| TypeError
| ValueError
| HTTPStatusError (status : Z)
| RequestError (msg : pystr)
| LibraryError (msg : pystr).

Inductive outcome (A : Type) : Type :=
| Ret (a : A)
| Raise (e : exn).
Arguments Ret {A} a.
Arguments Raise {A} e.

(** [d[k]] on a dict given by its items *)
Fixpoint dict_get {V : Type} (k : pystr) (d : list (pystr * V)) : option V :=
  match d with
  | [] => None
  | (k', v) :: d' => if pystr_eqb k k' then Some v else dict_get k d'
  end.

(** [m[k]] on a [dict[str, str]] *)
Definition message_getitem (m : message) (k : pystr) : outcome pystr :=
  match dict_get k m with
  | Some v => Ret v
  | None => Raise (KeyError (VStr k))
  end.

(** [v[k]] with a string key *)
Definition getitem_key (v : value) (k : pystr) : outcome value :=
  match v with
  | VDict items =>
      match dict_get k items with
      | Some x => Ret x
      | None => Raise (KeyError (VStr k))
      end
  | _ => Raise TypeError
  end.

(** [v[0]] *)
Definition getitem_0 (v : value) : outcome value :=
  match v with
  | VList (x :: _) => Ret x
  | VList [] => Raise IndexError
  | VStr (c :: _) => Ret (VStr [c])
  | VStr [] => Raise IndexError
  | VDict _ => Raise (KeyError (VInt 0))
  | _ => Raise TypeError
  end.

(** [needle in v] for a string [needle] *)
Definition py_in (needle : pystr) (v : value) : outcome bool :=
  match v with
  | VStr s => Ret (contains needle s)
  | VList items =>
      Ret (existsb (fun x => match x with
                             | VStr s => pystr_eqb needle s
                             | _ => false
                             end) items)
  | VDict items => Ret (existsb (fun kv => pystr_eqb needle (fst kv)) items)
  | _ => Raise TypeError
  end.

(** [len(v)] *)
Definition py_len (v : value) : outcome Z :=
  match v with
  | VStr s => Ret (len s)
  | VList items => Ret (Z.of_nat (List.length items))
  | VDict items => Ret (Z.of_nat (List.length items))
  | _ => Raise TypeError
  end.

Definition message_value (m : message) : value :=
  VDict (map (fun kv => (fst kv, VStr (snd kv))) m).

Definition history_value (history : list message) : value :=
  VList (map message_value history).

(** [int | None] as a condition, as text, and compared with an [int] *)
Definition truthy_optint (o : option Z) : bool :=
  match o with
  | Some v => negb (v =? 0)
  | None => false
  end.

Definition str_optint (o : option Z) : pystr :=
  match o with
  | Some v => str_int v
  | None => lit "None"
  end.

Definition optint_eqb (o : option Z) (n : Z) : bool :=
  match o with
  | Some v => v =? n
  | None => false
  end.

(** The caller identity, [str | int] with default [None]. *)
Inductive user_id : Type :=
| IdNone
| IdStr (s : pystr)
| IdInt (z : Z).

Definition truthy_id (u : user_id) : bool :=
  match u with
  | IdNone => false
  | IdStr s => match s with [] => false | _ => true end
  | IdInt z => negb (z =? 0)
  end.

(** [str(user_id)] *)
Definition str_id (u : user_id) : pystr :=
  match u with
  | IdNone => lit "None"
  | IdStr s => s
  | IdInt z => str_int z
  end.

(** [str(OWNER_ID)] for the result of [os.getenv] *)
Definition str_env (o : option pystr) : pystr :=
  match o with
  | Some s => s
  | None => lit "None"
  end.

(* ===================================================================== *)
(** ** State, environment, monad *)
(* ===================================================================== *)

(** What the module does to the outside, in order. *)
Inductive event : Type :=
| EvPost (url : pystr) (headers : list (pystr * pystr)) (payload : value)
| EvClient
| EvCreate (model : pystr) (messages : list message)
| EvSearch (query : pystr)
| EvGet (path : pystr)
| EvPrint (text : pystr).

(** The module globals of lines 20-23, and the record of interactions. *)
Record state : Type := mkState {
  current_option : Z;
  owner_temp_option : option Z;
  deepinfra_requests : Z;
  g4f_requests : Z;
  log : list event
}.

Definition initial_state : state :=
  {| current_option := 1; owner_temp_option := None;
     deepinfra_requests := 0; g4f_requests := 0; log := [] |}.

Definition set_current_option (v : Z) (st : state) : state :=
  mkState v (owner_temp_option st) (deepinfra_requests st) (g4f_requests st) (log st).
Definition set_owner_temp_option (o : option Z) (st : state) : state :=
  mkState (current_option st) o (deepinfra_requests st) (g4f_requests st) (log st).
Definition set_deepinfra_requests (n : Z) (st : state) : state :=
  mkState (current_option st) (owner_temp_option st) n (g4f_requests st) (log st).
Definition set_g4f_requests (n : Z) (st : state) : state :=
  mkState (current_option st) (owner_temp_option st) (deepinfra_requests st) n (log st).
Definition emit (ev : event) (st : state) : state :=
  mkState (current_option st) (owner_temp_option st) (deepinfra_requests st)
          (g4f_requests st) (log st ++ [ev]).

(** An HTTP response: its status and what [json()] does on its body. *)
Record response : Type := mkResponse {
  status_code : Z;
  json : outcome value
}.

(** [io.BytesIO] holding [data]. *)
Record BytesIO : Type := mkBytesIO { getvalue : list Byte.byte }.

(** The collaborators.  Each answer may depend on the events so far, so
    two calls with equal arguments need not agree. *)
Record env : Type := mkEnv {
  requests_post : list event -> pystr -> list (pystr * pystr) -> value -> outcome response;
  Client : list event -> outcome unit;
  completions_create : list event -> pystr -> list message -> outcome value;
  DDGS_text : list event -> pystr -> outcome (list message);
  cl_get : list event -> pystr -> outcome response;
  b64decode : value -> outcome (list Byte.byte);
  str_exn : exn -> pystr
}.

(** Computations over the globals that may raise; what was mutated
    before a [Raise] stays mutated. *)
Definition Py (A : Type) : Type := state -> outcome A * state.

Definition ret {A : Type} (a : A) : Py A := fun st => (Ret a, st).
Definition raise {A : Type} (e : exn) : Py A := fun st => (Raise e, st).
Definition lift {A : Type} (o : outcome A) : Py A := fun st => (o, st).

Definition bind {A B : Type} (c : Py A) (k : A -> Py B) : Py B :=
  fun st =>
    match c st with
    | (Ret a, st') => k a st'
    | (Raise e, st') => (Raise e, st')
    end.

(** [try: body / except Exception as e: handler e] *)
Definition try_except {A : Type} (body : Py A) (handler : exn -> Py A) : Py A :=
  fun st =>
    match body st with
    | (Ret a, st') => (Ret a, st')
    | (Raise e, st') => handler e st'
    end.

Definition get_state : Py state := fun st => (Ret st, st).
Definition modify (f : state -> state) : Py unit := fun st => (Ret tt, f st).

Declare Scope py_scope.
Delimit Scope py_scope with py.
Notation "x <- c ;; k" := (bind c (fun x => k))
  (at level 100, c at next level, right associativity) : py_scope.
Notation "c ;;; k" := (bind c (fun _ => k))
  (at level 100, right associativity) : py_scope.
Local Open Scope py_scope.

Fixpoint mapM {A B : Type} (f : A -> Py B) (l : list A) : Py (list B) :=
  match l with
  | [] => ret []
  | x :: l' => y <- f x ;; ys <- mapM f l' ;; ret (y :: ys)
  end.

(* ===================================================================== *)
(** ** The module *)
(* ===================================================================== *)

(** The literals of the source that are not plain ASCII. *)
Definition no_entry : codepoint := 9940%N.        (* U+26D4 *)
Definition cross_mark : codepoint := 10060%N.     (* U+274C *)
Definition check_mark : codepoint := 9989%N.      (* U+2705 *)
Definition arrow : codepoint := 8594%N.           (* U+2192 *)
Definition bar_chart : codepoint := 128202%N.     (* U+1F4CA *)

Definition refusal_message : pystr :=
  no_entry :: lit " Only the owner can use this command.".
Definition usage_message : pystr :=
  lit "Usage: /tryoption <1|2> or /fixoption <1|2>".
Definition invalid_option_message : pystr :=
  cross_mark :: lit " Invalid option. Choose 1 or 2.".
Definition temporary_message (value : Z) : pystr :=
  check_mark :: lit " Temporary model switched to Option " ++ str_int value
    ++ lit " (for owner only).".
Definition permanent_message (value : Z) : pystr :=
  check_mark :: lit " Global model permanently changed to Option " ++ str_int value
    ++ lit ".".
Definition deepinfra_apology : pystr :=
  lit "I'm sorry, I couldn't get a response from DeepInfra right now.".

Definition deepinfra_url : pystr :=
  lit "https://api.deepinfra.com/v1/openai/chat/completions".
Definition deepinfra_headers : list (pystr * pystr) :=
  [ (lit "accept", lit "application/json");
    (lit "content-type", lit "application/json");
    (lit "origin", lit "https://deepinfra.com");
    (lit "referer", lit "https://deepinfra.com/");
    (lit "user-agent", lit "Mozilla/5.0");
    (lit "x-deepinfra-source", lit "web-pag") ].
(** The payload of line 47, handed over as a value; [json.dumps] of it is
    what goes on the wire. *)
Definition deepinfra_payload (history : list message) : value :=
  VDict [ (lit "model", VStr (lit "openai/gpt-oss-120b"));
          (lit "messages", history_value history);
          (lit "stream", VBool false) ].

Definition g4f_model : pystr := lit "gpt-4o-mini".

(** Lines 81 and 84: the retry's prompt and its one-message history. *)
Definition combined_prompt (prompt web_text : pystr) : pystr :=
  prompt ++ nl ++ nl ++ lit "Use this web info to answer:" ++ nl ++ web_text.
Definition single_message (content : pystr) : list message :=
  [ [ (lit "role", lit "user"); (lit "content", content) ] ].

(** [x in l] for a list of strings *)
Definition in_list (x : pystr) (l : list pystr) : bool := existsb (pystr_eqb x) l.

(** [parts[i]] *)
Definition list_getitem (parts : list pystr) (i : nat) : outcome pystr :=
  match nth_error parts i with
  | Some x => Ret x
  | None => Raise IndexError
  end.

(** [int(value)] *)
Definition py_int (s : pystr) : outcome Z :=
  match int_of_str s with
  | Some z => Ret z
  | None => Raise ValueError
  end.

(** [response.raise_for_status()]: an error unless the status is 2xx. *)
Definition raise_for_status (r : response) : outcome unit :=
  if (200 <=? status_code r) && (status_code r <=? 299)
  then Ret tt
  else Raise (HTTPStatusError (status_code r)).

Section Utils.

Variable E : env.
(** Line 15: read once from the environment; [None] when unset. *)
Variable OWNER_ID : option pystr.

(** *** External calls: consult the environment, log the event *)

Definition post (url : pystr) (headers : list (pystr * pystr)) (payload : value)
  : Py response :=
  fun st => (requests_post E (log st) url headers payload,
             emit (EvPost url headers payload) st).

Definition new_Client : Py unit :=
  fun st => (Client E (log st), emit EvClient st).

Definition create (model : pystr) (messages : list message) : Py value :=
  fun st => (completions_create E (log st) model messages,
             emit (EvCreate model messages) st).

Definition search (query : pystr) : Py (list message) :=
  fun st => (DDGS_text E (log st) query, emit (EvSearch query) st).

Definition get (path : pystr) : Py response :=
  fun st => (cl_get E (log st) path, emit (EvGet path) st).

Definition print (text : pystr) : Py unit := modify (emit (EvPrint text)).

(** *** Lines 32-59 *)
Definition deepinfra_response (history : list message) : Py value :=
  try_except
    (response <- post deepinfra_url deepinfra_headers (deepinfra_payload history) ;;
     data <- lift (json response) ;;
     modify (fun st => set_deepinfra_requests (deepinfra_requests st + 1) st) ;;;
     choices <- lift (getitem_key data (lit "choices")) ;;
     choice <- lift (getitem_0 choices) ;;
     msg <- lift (getitem_key choice (lit "message")) ;;
     lift (getitem_key msg (lit "content")))
    (fun e =>
       print (lit "DeepInfra error: " ++ str_exn E e) ;;;
       ret (VStr deepinfra_apology)).

(** Line 78: ["I don't know" in response or len(response) < 20] *)
Definition low_confidence (response : value) : outcome bool :=
  match py_in (lit "I don't know") response with
  | Ret true => Ret true
  | Ret false =>
      match py_len response with
      | Ret n => Ret (n <? 20)
      | Raise e => Raise e
      end
  | Raise e => Raise e
  end.

(** *** Lines 65-90 *)
Definition g4f_response (history : list message) : Py value :=
  try_except
    (new_Client ;;;
     prompt <- match history with
               | [] => ret (lit "Hello")
               | _ :: _ => lift (message_getitem (last history []) (lit "content"))
               end ;;
     response <- create g4f_model history ;;
     modify (fun st => set_g4f_requests (g4f_requests st + 1) st) ;;;
     low <- lift (low_confidence response) ;;
     if low : bool
     then
       search_result <- search prompt ;;
       bodies <- mapM (fun r => lift (message_getitem r (lit "body")))
                      (firstn 3 search_result) ;;
       let web_text := join nl bodies in
       create g4f_model (single_message (combined_prompt prompt web_text))
     else ret response)
    (fun e =>
       print (lit "g4f error: " ++ str_exn E e) ;;;
       ret (VStr (lit "Error: " ++ str_exn E e))).

(** Line 105: the guard of the owner's temporary option *)
Definition owner_override_active (uid : user_id) (st : state) : bool :=
  truthy_id uid
  && pystr_eqb (str_id uid) (str_env OWNER_ID)
  && truthy_optint (owner_temp_option st).

(** Lines 102-106 *)
Definition option_to_use (uid : user_id) (st : state) : option Z :=
  if owner_override_active uid st
  then owner_temp_option st
  else Some (current_option st).

(** *** Lines 96-111 *)
Definition get_ai_response (history : list message) (uid : user_id) : Py value :=
  st <- get_state ;;
  if optint_eqb (option_to_use uid st) 2
  then g4f_response history
  else deepinfra_response history.

(** *** Lines 117-143 *)
Definition handle_option_command (uid : user_id) (command : pystr) : Py pystr :=
  if negb (pystr_eqb (str_id uid) (str_env OWNER_ID))
  then ret refusal_message
  else
    let parts := split (strip command) in
    if negb (List.length parts =? 2)%nat
    then ret usage_message
    else
      head <- lift (list_getitem parts 0) ;;
      if negb (in_list head [lit "/tryoption"; lit "/fixoption"])
      then ret usage_message
      else
        cmd <- lift (list_getitem parts 0) ;;
        value <- lift (list_getitem parts 1) ;;
        if negb (in_list value [lit "1"; lit "2"])
        then ret invalid_option_message
        else
          value <- lift (py_int value) ;;
          if pystr_eqb cmd (lit "/tryoption")
          then
            modify (set_owner_temp_option (Some value)) ;;;
            ret (temporary_message value)
          else
            modify (set_current_option value) ;;;
            modify (set_owner_temp_option None) ;;;
            ret (permanent_message value).

(** Lines 155-156 *)
Definition option_display (st : state) : pystr :=
  lit "Option 1 " ++ [arrow] ++ lit " DeepInfra" ++ nl
    ++ lit "Total Requests: " ++ str_int (deepinfra_requests st) ++ nl ++ nl
    ++ lit "Option 2 " ++ [arrow] ++ lit " g4f + DuckDuckGo" ++ nl
    ++ lit "Total Requests: " ++ str_int (g4f_requests st) ++ nl ++ nl.

(** Lines 158-161 *)
Definition current_line (uid : user_id) (st : state) : pystr :=
  if pystr_eqb (str_id uid) (str_env OWNER_ID) && truthy_optint (owner_temp_option st)
  then lit "Current Model: Option " ++ str_optint (owner_temp_option st)
         ++ lit " (temporary for owner)"
  else lit "Current Model: Option " ++ str_int (current_option st).

(** *** Lines 149-163 *)
Definition handle_status_command (uid : user_id) : Py pystr :=
  st <- get_state ;;
  ret ([bar_chart] ++ lit " Model Status" ++ nl ++ nl
         ++ option_display st ++ current_line uid st).

(** *** Lines 169-187 *)
Definition create_image (encoded_prompt : pystr) : Py (option BytesIO) :=
  try_except
    (response <- get (lit "/ai/image/?prompt=" ++ encoded_prompt) ;;
     lift (raise_for_status response) ;;;
     data <- lift (json response) ;;
     base64_image <- lift (getitem_key data (lit "image")) ;;
     image_data <- lift (b64decode E base64_image) ;;
     let image_file := mkBytesIO image_data in
     ret (Some image_file))
    (fun exc =>
       match exc with
       | HTTPStatusError _ =>
           print (lit "HTTP error occurred: " ++ str_exn E exc)
       | RequestError _ =>
           print (lit "Request error occurred: " ++ str_exn E exc)
       | _ =>
           print (lit "An unexpected error occurred: " ++ str_exn E exc)
       end ;;;
       ret None).

End Utils.

(* ===================================================================== *)
(** ** Specification vocabulary *)
(* ===================================================================== *)

(** The values the globals can take: an option is 1 or 2, the override is
    unset or an option, the counters only grow from 0. *)
Definition valid (st : state) : Prop :=
  (current_option st = 1 \/ current_option st = 2)
  /\ (owner_temp_option st = None \/ owner_temp_option st = Some 1
      \/ owner_temp_option st = Some 2)
  /\ 0 <= deepinfra_requests st
  /\ 0 <= g4f_requests st.

(** The entry points of the module, as one call each. *)
Inductive call : Type :=
| CallDeepinfra (history : list message)
| CallG4f (history : list message)
| CallAi (history : list message) (uid : user_id)
| CallOption (uid : user_id) (command : pystr)
| CallStatus (uid : user_id)
| CallImage (encoded_prompt : pystr).

Definition after (E : env) (OWNER_ID : option pystr) (c : call) (st : state) : state :=
  match c with
  | CallDeepinfra history => snd (deepinfra_response E history st)
  | CallG4f history => snd (g4f_response E history st)
  | CallAi history uid => snd (get_ai_response E OWNER_ID history uid st)
  | CallOption uid command => snd (handle_option_command OWNER_ID uid command st)
  | CallStatus uid => snd (handle_status_command OWNER_ID uid st)
  | CallImage encoded_prompt => snd (create_image E encoded_prompt st)
  end.

(** The states a process can be in: the initial one and whatever a
    sequence of calls makes of it. *)
Inductive reachable (E : env) (OWNER_ID : option pystr) : state -> Prop :=
| reachable_initial : reachable E OWNER_ID initial_state
| reachable_after : forall st c,
    reachable E OWNER_ID st -> reachable E OWNER_ID (after E OWNER_ID c st).

(** Equal selection state and counters; the event log may differ. *)
Definition same_globals (st st' : state) : Prop :=
  current_option st' = current_option st
  /\ owner_temp_option st' = owner_temp_option st
  /\ deepinfra_requests st' = deepinfra_requests st
  /\ g4f_requests st' = g4f_requests st.

(** Line 56 as one step: [data["choices"][0]["message"]["content"]]. *)
Definition content_of (data : value) : outcome value :=
  match getitem_key data (lit "choices") with
  | Ret choices =>
      match getitem_0 choices with
      | Ret choice =>
          match getitem_key choice (lit "message") with
          | Ret msg => getitem_key msg (lit "content")
          | Raise e => Raise e
          end
      | Raise e => Raise e
      end
  | Raise e => Raise e
  end.

(** Line 80 as one step: [[r["body"] for r in hits]]. *)
Fixpoint bodies_of (hits : list message) : outcome (list pystr) :=
  match hits with
  | [] => Ret []
  | r :: hits' =>
      match message_getitem r (lit "body") with
      | Ret b =>
          match bodies_of hits' with
          | Ret bs => Ret (b :: bs)
          | Raise e => Raise e
          end
      | Raise e => Raise e
      end
  end.

(** Line 70: the prompt taken from the history. *)
Definition prompt_of (history : list message) : outcome pystr :=
  match history with
  | [] => Ret (lit "Hello")
  | _ :: _ => message_getitem (last history []) (lit "content")
  end.

(** The report of lines 155-163 for given counters and last line. *)
Definition report_lines (requests_1 requests_2 : Z) (current : pystr) : list pystr :=
  [ bar_chart :: lit " Model Status";
    [];
    lit "Option 1 " ++ [arrow] ++ lit " DeepInfra";
    lit "Total Requests: " ++ str_int requests_1;
    [];
    lit "Option 2 " ++ [arrow] ++ lit " g4f + DuckDuckGo";
    lit "Total Requests: " ++ str_int requests_2;
    [];
    current ].

(** How the handler of line 88 leaves Provider Client B. *)
Definition g4f_failed (E : env) (e : exn) (st : state) : outcome value * state :=
  (Ret (VStr (lit "Error: " ++ str_exn E e)),
   emit (EvPrint (lit "g4f error: " ++ str_exn E e)) st).

(** How the handler of line 57 leaves Provider Client A. *)
Definition deepinfra_failed (E : env) (e : exn) (st : state) : outcome value * state :=
  (Ret (VStr deepinfra_apology),
   emit (EvPrint (lit "DeepInfra error: " ++ str_exn E e)) st).

Definition capital_C : codepoint := 67%N.

(** [c] does not occur in [s]. *)
Definition free_of (c : codepoint) (s : pystr) : bool :=
  forallb (fun x => negb (x =? c)%N) s.

(** The characters [str] of an [int] is made of. *)
Definition decimal_char (c : codepoint) : bool :=
  ((c =? 45) || ((48 <=? c) && (c <=? 57)))%N.

(* ===================================================================== *)
(** ** Processes and their traces *)
(* ===================================================================== *)

(** A process: calls made one after the other. *)
Definition after_all (E : env) (OWNER_ID : option pystr) (cs : list call)
    (st : state) : state :=
  fold_left (fun s c => after E OWNER_ID c s) cs st.

(** Routing calls, one per history and caller. *)
Definition routing_calls (l : list (list message * user_id)) : list call :=
  map (fun p => CallAi (fst p) (snd p)) l.

Definition is_post (ev : event) : bool :=
  match ev with
  | EvPost _ _ _ => true
  | _ => false
  end.

Definition is_completion (ev : event) : bool :=
  match ev with
  | EvCreate _ _ => true
  | _ => false
  end.

Definition is_search (ev : event) : bool :=
  match ev with
  | EvSearch _ => true
  | _ => false
  end.

(** How many events of a kind a trace holds. *)
Definition count (p : event -> bool) (l : list event) : Z :=
  Z.of_nat (List.length (filter p l)).

(** The two command names of line 128 and the two options of line 132. *)
Definition command_names : list pystr := [lit "/tryoption"; lit "/fixoption"].
Definition option_texts : list pystr := [lit "1"; lit "2"].

(** The shape [{"choices": [{"message": {"content": c}}, ...]}]. *)
Definition completion_shape (data c : value) : Prop :=
  exists items choice rest msg,
    data = VDict items
    /\ dict_get (lit "choices") items = Some (VList (VDict choice :: rest))
    /\ dict_get (lit "message") choice = Some (VDict msg)
    /\ dict_get (lit "content") msg = Some c.

(** What one call adds: some events, at most one POST, at most two
    completions, at most one search; the A counter moves by at most the
    POSTs, the B counter by at least the searches and at most the
    completions. *)
Definition step_bounds (st st' : state) : Prop :=
  exists new,
    log st' = log st ++ new
    /\ count is_post new <= 1
    /\ count is_completion new <= 2
    /\ count is_search new <= 1
    /\ 0 <= deepinfra_requests st' - deepinfra_requests st <= count is_post new
    /\ count is_search new <= g4f_requests st' - g4f_requests st
    /\ g4f_requests st' - g4f_requests st <= 1
    /\ g4f_requests st' - g4f_requests st <= count is_completion new.

(** A value that is neither text nor a container: [in] and [len] both
    refuse it. *)
Definition is_scalar (v : value) : bool :=
  match v with
  | VNone | VBool _ | VInt _ | VFloat _ => true
  | _ => false
  end.

(** A call that is not an option command of a caller equal as text to
    the owner. *)
Definition unprivileged (OWNER_ID : option pystr) (c : call) : Prop :=
  match c with
  | CallOption uid _ => str_id uid <> str_env OWNER_ID
  | _ => True
  end.

(* ===================================================================== *)
(** ** A sample environment *)
(* ===================================================================== *)

(** The index of a character in the standard base64 alphabet. *)
Definition b64_index (c : codepoint) : option N :=
  (if (65 <=? c) && (c <=? 90) then Some (c - 65)
   else if (97 <=? c) && (c <=? 122) then Some (c - 71)
   else if (48 <=? c) && (c <=? 57) then Some (c + 4)
   else if c =? 43 then Some 62
   else if c =? 47 then Some 63
   else None)%N.

Definition byte_of_N (n : N) : Byte.byte :=
  match Byte.of_N (n mod 256) with
  | Some b => b
  | None => Byte.x00
  end.

(** A lenient base64 decoder in the manner of [binascii.a2b_base64]:
    characters outside the alphabet are skipped, decoding stops at a
    complete padding, leftover sextets are an error. *)
Fixpoint a2b_base64 (s : pystr) (quad_pos : nat) (leftchar : N) (pads : nat)
    (out : list Byte.byte) : outcome (list Byte.byte) :=
  match s with
  | [] => match quad_pos with
          | O => Ret (rev out)
          | _ => Raise ValueError
          end
  | c :: s' =>
      if (c =? 61)%N
      then if (2 <=? quad_pos)%nat && (4 <=? quad_pos + S pads)%nat
           then Ret (rev out)
           else a2b_base64 s' quad_pos leftchar (S pads) out
      else match b64_index c with
           | None => a2b_base64 s' quad_pos leftchar pads out
           | Some v =>
               match quad_pos with
               | 0%nat => a2b_base64 s' 1%nat v 0%nat out
               | 1%nat =>
                   a2b_base64 s' 2%nat (N.land v 15) 0%nat
                     (byte_of_N (N.lor (N.shiftl leftchar 2) (N.shiftr v 4)) :: out)
               | 2%nat =>
                   a2b_base64 s' 3%nat (N.land v 3) 0%nat
                     (byte_of_N (N.lor (N.shiftl leftchar 4) (N.shiftr v 2)) :: out)
               | _ =>
                   a2b_base64 s' 0%nat 0%N 0%nat
                     (byte_of_N (N.lor (N.shiftl leftchar 6) v) :: out)
               end
           end
  end.

Definition sample_b64decode (v : value) : outcome (list Byte.byte) :=
  match v with
  | VStr s =>
      if forallb (fun c => (c <? 128)%N) s
      then a2b_base64 s 0%nat 0%N 0%nat []
      else Raise ValueError
  | _ => Raise TypeError
  end.

Definition sample_str_exn (e : exn) : pystr :=
  match e with
  | KeyError (VStr k) => lit "'" ++ k ++ lit "'"
  | KeyError _ => lit "0"
  | IndexError => lit "index out of range"
  | TypeError => lit "unsupported operand"
  | ValueError => lit "invalid value"
  | HTTPStatusError status => lit "status " ++ str_int status
  | RequestError msg => msg
  | LibraryError msg => msg
  end.

Definition is_create (ev : event) : bool :=
  match ev with
  | EvCreate _ _ => true
  | _ => false
  end.

(** An environment with scripted answers: one for the POST, one for the
    first completion and one for every later completion, one for the
    search, one for the GET. *)
Definition scripted (post_answer : outcome response)
    (first_answer later_answer : outcome value)
    (hits : outcome (list message)) (get_answer : outcome response) : env :=
  mkEnv (fun _ _ _ _ => post_answer)
        (fun _ => Ret tt)
        (fun lg _ _ => if existsb is_create lg then later_answer else first_answer)
        (fun _ _ => hits)
        (fun _ _ => get_answer)
        sample_b64decode
        sample_str_exn.

(** [{"choices": [{"message": {"content": text}}]}] *)
Definition completion_body (text : pystr) : value :=
  VDict [ (lit "choices",
           VList [ VDict [ (lit "message",
                            VDict [ (lit "content", VStr text) ]) ] ]) ].

Definition sample_env : env :=
  scripted (Ret (mkResponse 200 (Ret (completion_body (lit "Four.")))))
           (Ret (VStr (lit "The answer to that question is four.")))
           (Ret (VStr (lit "According to the web, it is four.")))
           (Ret [ [ (lit "title", lit "t1"); (lit "body", lit "two plus two") ];
                  [ (lit "body", lit "is four") ] ])
           (Ret (mkResponse 200 (Ret (VDict [ (lit "image", VStr (lit "aGk=")) ])))).


(** The POST is answered with a page that is not JSON. *)
Definition bad_gateway_env : env :=
  scripted (Ret (mkResponse 502
                   (Raise (LibraryError (lit "Expecting value: line 1 column 1 (char 0)")))))
           (Ret VNone) (Ret VNone) (Ret []) (Raise (RequestError (lit "timed out"))).

(** The first completion is a disclaimer, the later one an answer. *)
Definition unsure_env : env :=
  scripted (Raise (RequestError (lit "timed out")))
           (Ret (VStr (lit "I don't know.")))
           (Ret (VStr (lit "Two plus two is four.")))
           (Ret [ [ (lit "title", lit "sum"); (lit "body", lit "2 + 2 = 4") ];
                  [ (lit "body", lit "four") ];
                  [ (lit "body", lit "IV") ];
                  [ (lit "href", lit "no body here") ] ])
           (Raise (RequestError (lit "timed out"))).

Definition question : list message :=
  [ [ (lit "role", lit "system"); (lit "content", lit "Be brief.") ];
    [ (lit "role", lit "user"); (lit "content", lit "What is 2+2?") ] ].

(** An environment that answers the image request with [get_answer]. *)
Definition image_env (get_answer : outcome response) : env :=
  scripted (Raise (RequestError (lit "timed out"))) (Ret VNone) (Ret VNone) (Ret [])
           get_answer.


(* ===================================================================== *)
(** * Facts about text *)
(* ===================================================================== *)

Lemma pystr_eqb_eq (a b : pystr) : pystr_eqb a b = true <-> a = b.
Proof.
  unfold pystr_eqb. destruct (list_eq_dec N.eq_dec a b); split; congruence.
Qed.

Lemma pystr_eqb_refl (a : pystr) : pystr_eqb a a = true.
Proof. now apply pystr_eqb_eq. Qed.

Lemma pystr_eqb_neq (a b : pystr) : a <> b -> pystr_eqb a b = false.
Proof.
  intro H. destruct (pystr_eqb a b) eqn:E; [|reflexivity].
  apply pystr_eqb_eq in E. contradiction.
Qed.

Lemma in_list_In (x : pystr) (l : list pystr) : in_list x l = true <-> In x l.
Proof.
  unfold in_list. rewrite existsb_exists. split.
  - intros [y [Hy E]]. apply pystr_eqb_eq in E. now subst.
  - intro H. exists x. split; [assumption | apply pystr_eqb_refl].
Qed.

Lemma in_list_not_In (x : pystr) (l : list pystr) : ~ In x l -> in_list x l = false.
Proof.
  intro H. destruct (in_list x l) eqn:E; [|reflexivity].
  apply in_list_In in E. contradiction.
Qed.

Lemma lit_app (a b : string) : lit (a ++ b) = lit a ++ lit b.
Proof.
  unfold lit. induction a as [|c a IH]; simpl; [reflexivity|].
  now rewrite IH.
Qed.

Lemma decimal_uint (d : Decimal.uint) :
  forallb decimal_char (lit (NilEmpty.string_of_uint d)) = true.
Proof. induction d; simpl; try assumption; reflexivity. Qed.

(** [str] of an [int] is a sign and digits. *)
Lemma str_int_decimal (z : Z) : forallb decimal_char (str_int z) = true.
Proof.
  unfold str_int, NilZero.string_of_int.
  destruct (Z.to_int z) as [d|d].
  - destruct d; try reflexivity; apply decimal_uint.
  - change (forallb decimal_char
              (lit (String "-" EmptyString ++ NilZero.string_of_uint d)) = true).
    rewrite lit_app, forallb_app. simpl.
    destruct d; try reflexivity; apply decimal_uint.
Qed.

Lemma free_of_app (c : codepoint) (a b : pystr) :
  free_of c (a ++ b) = free_of c a && free_of c b.
Proof. apply forallb_app. Qed.

Lemma free_of_decimal (c : codepoint) (s : pystr) :
  decimal_char c = false -> forallb decimal_char s = true -> free_of c s = true.
Proof.
  intros Hc. induction s as [|x s IH]; simpl; [reflexivity|].
  intro H. apply andb_true_iff in H as [Hx Hs].
  rewrite (IH Hs), andb_true_r.
  destruct (N.eqb_spec x c) as [->|]; [congruence | reflexivity].
Qed.

Lemma str_int_no_newline (z : Z) : free_of newline (str_int z) = true.
Proof. apply free_of_decimal; [reflexivity | apply str_int_decimal]. Qed.

Lemma split_on_cons_nonempty (sep : codepoint) (s : pystr) : split_on sep s <> [].
Proof.
  induction s as [|c s IH]; simpl; [discriminate|].
  destruct (c =? sep)%N; [discriminate|].
  destruct (split_on sep s); discriminate.
Qed.

Lemma split_on_free (sep : codepoint) (a : pystr) :
  free_of sep a = true -> split_on sep a = [a].
Proof.
  induction a as [|c a IH]; simpl; [reflexivity|].
  intro H. apply andb_true_iff in H as [Hc Ha].
  apply negb_true_iff in Hc. rewrite Hc, (IH Ha). reflexivity.
Qed.

Lemma split_on_app (sep : codepoint) (a b : pystr) :
  free_of sep a = true -> split_on sep (a ++ sep :: b) = a :: split_on sep b.
Proof.
  induction a as [|c a IH]; simpl.
  - intros _. now rewrite N.eqb_refl.
  - intro H. apply andb_true_iff in H as [Hc Ha].
    apply negb_true_iff in Hc. rewrite Hc, (IH Ha). reflexivity.
Qed.

(** Splitting at newlines undoes joining with newlines. *)
Lemma lines_join (ls : list pystr) :
  ls <> [] -> forallb (free_of newline) ls = true -> lines (join nl ls) = ls.
Proof.
  unfold lines, nl. induction ls as [|l ls IH]; [congruence|].
  intros _ H. simpl in H. apply andb_true_iff in H as [Hl Hls].
  destruct ls as [|l' ls].
  - simpl. now apply split_on_free.
  - change (join [newline] (l :: l' :: ls))
      with (l ++ newline :: join [newline] (l' :: ls)).
    rewrite split_on_app by assumption.
    f_equal. apply IH; [discriminate | assumption].
Qed.

Lemma forallb_reverse {A : Type} (f : A -> bool) (l : list A) :
  forallb f (rev l) = forallb f l.
Proof.
  induction l as [|x l IH]; simpl; [reflexivity|].
  rewrite forallb_app, IH. simpl. rewrite andb_true_r. apply andb_comm.
Qed.

(** A token of [split] is never empty and holds no whitespace. *)
Lemma split_from_tokens (s cur : pystr) :
  forallb (fun c => negb (isspace c)) cur = true ->
  Forall (fun t => t <> [] /\ forallb (fun c => negb (isspace c)) t = true)
         (split_from cur s).
Proof.
  revert cur. induction s as [|c s IH]; intros cur Hcur; simpl.
  - destruct cur as [|x cur]; constructor; [|constructor].
    split.
    + intro E. apply (f_equal (@List.length _)) in E.
      rewrite length_rev in E. discriminate.
    + rewrite forallb_reverse. exact Hcur.
  - destruct (isspace c) eqn:Hc.
    + destruct cur as [|x cur]; [now apply IH|].
      constructor; [|now apply IH].
      split.
      * intro E. apply (f_equal (@List.length _)) in E.
        rewrite length_rev in E. discriminate.
      * rewrite forallb_reverse. exact Hcur.
    + apply IH. simpl. now rewrite Hc.
Qed.

Lemma split_tokens (s : pystr) :
  Forall (fun t => t <> [] /\ forallb (fun c => negb (isspace c)) t = true) (split s).
Proof. now apply split_from_tokens. Qed.

Lemma split_from_lstrip (s : pystr) : split_from [] (lstrip s) = split_from [] s.
Proof.
  induction s as [|c s IH]; simpl; [reflexivity|].
  destruct (isspace c) eqn:Hc; [exact IH|].
  simpl. now rewrite Hc.
Qed.

Lemma split_from_trailing_space (c : codepoint) (s cur : pystr) :
  isspace c = true -> split_from cur (s ++ [c]) = split_from cur s.
Proof.
  intro Hc. revert cur. induction s as [|x s IH]; intro cur; simpl.
  - rewrite Hc. destruct cur; reflexivity.
  - destruct (isspace x); [|apply IH].
    destruct cur; now rewrite IH.
Qed.

Lemma split_from_rstrip (s cur : pystr) : split_from cur (rstrip s) = split_from cur s.
Proof.
  unfold rstrip. rewrite <- (rev_involutive s) at 2.
  induction (rev s) as [|c t IH]; [reflexivity|].
  simpl lstrip. destruct (isspace c) eqn:Hc; [|reflexivity].
  simpl rev. rewrite split_from_trailing_space by assumption. exact IH.
Qed.

(** Line 127: stripping before splitting changes nothing. *)
Lemma split_strip (s : pystr) : split (strip s) = split s.
Proof.
  unfold split, strip. rewrite split_from_rstrip. apply split_from_lstrip.
Qed.

(* ===================================================================== *)
(** * Running the monad *)
(* ===================================================================== *)

Ltac run :=
  unfold bind, try_except, lift, ret, raise, modify, get_state,
    post, new_Client, create, search, get, print in *;
  simpl in *.

(** Case analysis on a scrutinee that is not itself a case analysis. *)
Ltac split_case :=
  match goal with
  | |- context [match ?x with _ => _ end] =>
      lazymatch x with
      | context [match _ with _ => _ end] => fail
      | _ => destruct x eqn:?; simpl
      end
  end.

Ltac split_cases := repeat split_case.

Lemma mapM_lift {A B : Type} (f : A -> outcome B) (l : list A) (st : state) :
  snd (mapM (fun x => lift (f x)) l st) = st.
Proof.
  induction l as [|x l IH]; simpl; [reflexivity|].
  run. destruct (f x); [|reflexivity].
  destruct (mapM (fun x0 => fun st0 => (f x0, st0)) l st) as [[ys|e] st'] eqn:E;
    simpl in *; exact IH.
Qed.

Lemma mapM_bodies (hits : list message) (st : state) :
  mapM (fun r => lift (message_getitem r (lit "body"))) hits st = (bodies_of hits, st).
Proof.
  induction hits as [|r hits IH]; simpl; [reflexivity|].
  unfold bind at 1. unfold lift at 1.
  destruct (message_getitem r (lit "body")); [|reflexivity].
  unfold bind at 1. rewrite IH.
  destruct (bodies_of hits); reflexivity.
Qed.

(** Line 56 in four steps is [content_of]. *)
Lemma content_steps (data : value) (st : state) :
  (choices <- lift (getitem_key data (lit "choices")) ;;
   choice <- lift (getitem_0 choices) ;;
   msg <- lift (getitem_key choice (lit "message")) ;;
   lift (getitem_key msg (lit "content")))%py st
  = (content_of data, st).
Proof.
  unfold content_of. run.
  destruct (getitem_key data _); [|reflexivity].
  destruct (getitem_0 _); [|reflexivity].
  destruct (getitem_key _ _); reflexivity.
Qed.

(* ===================================================================== *)
(** * What each entry point leaves alone *)
(* ===================================================================== *)

Lemma same_globals_refl (st : state) : same_globals st st.
Proof. repeat split. Qed.

Lemma same_globals_trans (a b c : state) :
  same_globals a b -> same_globals b c -> same_globals a c.
Proof. unfold same_globals. intuition congruence. Qed.

Lemma same_globals_emit (ev : event) (st : state) : same_globals st (emit ev st).
Proof. repeat split. Qed.

(** Provider Client A touches its own counter, by at most one. *)
Lemma deepinfra_response_frame (E : env) (history : list message) (st : state) :
  let st' := snd (deepinfra_response E history st) in
  current_option st' = current_option st
  /\ owner_temp_option st' = owner_temp_option st
  /\ g4f_requests st' = g4f_requests st
  /\ (deepinfra_requests st' = deepinfra_requests st
      \/ deepinfra_requests st' = deepinfra_requests st + 1).
Proof.
  unfold deepinfra_response. run. split_cases; repeat split; auto.
Qed.

Lemma mapM_bodies_run (hits : list message) (st : state) :
  mapM (fun (r : message) (st0 : state) => (message_getitem r (lit "body"), st0)) hits st
  = (bodies_of hits, st).
Proof. exact (mapM_bodies hits st). Qed.

(** Provider Client A, path by path. *)
Lemma deepinfra_response_paths (E : env) (history : list message) (st : state) :
  deepinfra_response E history st =
  let sent := emit (EvPost deepinfra_url deepinfra_headers (deepinfra_payload history)) st in
  match requests_post E (log st) deepinfra_url deepinfra_headers
          (deepinfra_payload history) with
  | Raise e => deepinfra_failed E e sent
  | Ret response =>
      match json response with
      | Raise e => deepinfra_failed E e sent
      | Ret data =>
          let counted := set_deepinfra_requests (deepinfra_requests st + 1) sent in
          match content_of data with
          | Raise e => deepinfra_failed E e counted
          | Ret content => (Ret content, counted)
          end
      end
  end.
Proof.
  unfold deepinfra_response, deepinfra_failed, content_of. run.
  split_cases; reflexivity.
Qed.

(** Provider Client B, path by path. *)
Lemma g4f_response_paths (E : env) (history : list message) (st : state) :
  g4f_response E history st =
  let made := emit EvClient st in
  match Client E (log st) with
  | Raise e => g4f_failed E e made
  | Ret _ =>
      match prompt_of history with
      | Raise e => g4f_failed E e made
      | Ret prompt =>
          let asked := emit (EvCreate g4f_model history) made in
          match completions_create E (log made) g4f_model history with
          | Raise e => g4f_failed E e asked
          | Ret response =>
              let counted := set_g4f_requests (g4f_requests st + 1) asked in
              match low_confidence response with
              | Raise e => g4f_failed E e counted
              | Ret false => (Ret response, counted)
              | Ret true =>
                  let searched := emit (EvSearch prompt) counted in
                  match DDGS_text E (log counted) prompt with
                  | Raise e => g4f_failed E e searched
                  | Ret hits =>
                      match bodies_of (firstn 3 hits) with
                      | Raise e => g4f_failed E e searched
                      | Ret bodies =>
                          let retry :=
                            single_message (combined_prompt prompt (join nl bodies)) in
                          let retried := emit (EvCreate g4f_model retry) searched in
                          match completions_create E (log searched) g4f_model retry with
                          | Raise e => g4f_failed E e retried
                          | Ret answer => (Ret answer, retried)
                          end
                      end
                  end
              end
          end
      end
  end.
Proof.
  unfold g4f_response, g4f_failed, prompt_of. run.
  destruct (Client E (log st)); [|reflexivity].
  destruct history as [|m history].
  - destruct (completions_create E _ g4f_model []); [|reflexivity].
    destruct (low_confidence a0) as [[|]|]; try reflexivity.
    destruct (DDGS_text E _ _); [|reflexivity].
    rewrite mapM_bodies_run.
    destruct (bodies_of _); [|reflexivity].
    destruct (completions_create E _ _ _); reflexivity.
  - destruct (message_getitem _ _); [|reflexivity].
    destruct (completions_create E _ g4f_model _); [|reflexivity].
    destruct (low_confidence a1) as [[|]|]; try reflexivity.
    destruct (DDGS_text E _ _); [|reflexivity].
    rewrite mapM_bodies_run.
    destruct (bodies_of _); [|reflexivity].
    destruct (completions_create E _ _ _); reflexivity.
Qed.

(** Provider Client B touches its own counter, by at most one. *)
Lemma g4f_response_frame (E : env) (history : list message) (st : state) :
  let st' := snd (g4f_response E history st) in
  current_option st' = current_option st
  /\ owner_temp_option st' = owner_temp_option st
  /\ deepinfra_requests st' = deepinfra_requests st
  /\ (g4f_requests st' = g4f_requests st
      \/ g4f_requests st' = g4f_requests st + 1).
Proof.
  rewrite g4f_response_paths. unfold g4f_failed. simpl.
  split_cases; repeat split; auto.
Qed.

(** The Image Proxy leaves every global alone. *)
Lemma create_image_frame (E : env) (encoded_prompt : pystr) (st : state) :
  same_globals st (snd (create_image E encoded_prompt st)).
Proof.
  unfold create_image, same_globals. run.
  split_cases; repeat split; reflexivity.
Qed.

(* ===================================================================== *)
(** * The Option Controller *)
(* ===================================================================== *)

Lemma option_refused (OWNER_ID : option pystr) (uid : user_id) (command : pystr)
    (st : state) :
  str_id uid <> str_env OWNER_ID ->
  handle_option_command OWNER_ID uid command st = (Ret refusal_message, st).
Proof.
  intro H. unfold handle_option_command.
  rewrite (pystr_eqb_neq _ _ H). reflexivity.
Qed.

(** A privileged command of two tokens, the first a command name and the
    second an option, takes effect. *)
Lemma option_accepted (OWNER_ID : option pystr) (uid : user_id) (command : pystr)
    (cmd value : pystr) (v : Z) (st : state) :
  str_id uid = str_env OWNER_ID ->
  split (strip command) = [cmd; value] ->
  (value = lit "1" /\ v = 1) \/ (value = lit "2" /\ v = 2) ->
  (cmd = lit "/tryoption" ->
   handle_option_command OWNER_ID uid command st
   = (Ret (temporary_message v), set_owner_temp_option (Some v) st))
  /\ (cmd = lit "/fixoption" ->
      handle_option_command OWNER_ID uid command st
      = (Ret (permanent_message v),
         set_owner_temp_option None (set_current_option v st))).
Proof.
  intros Hid Hparts Hv. unfold handle_option_command.
  rewrite Hid, pystr_eqb_refl, Hparts. simpl negb. cbv iota.
  split; intros ->; destruct Hv as [[-> ->]|[-> ->]]; reflexivity.
Qed.

(** A privileged command that is not two tokens, or whose first token is
    no command name, gets the usage text and changes nothing. *)
Lemma option_usage (OWNER_ID : option pystr) (uid : user_id) (command : pystr)
    (st : state) :
  str_id uid = str_env OWNER_ID ->
  List.length (split (strip command)) <> 2%nat
  \/ ~ In (hd [] (split (strip command))) [lit "/tryoption"; lit "/fixoption"] ->
  handle_option_command OWNER_ID uid command st = (Ret usage_message, st).
Proof.
  intros Hid H. unfold handle_option_command.
  rewrite Hid, pystr_eqb_refl. simpl negb. cbv iota.
  destruct (split (strip command)) as [|a [|b [|c r]]]; try reflexivity.
  destruct H as [H|H]; [now elim H|].
  simpl hd in H. apply in_list_not_In in H.
  simpl List.length. simpl Nat.eqb. simpl negb. cbv iota.
  run. rewrite H. reflexivity.
Qed.

(** A privileged command with a command name and a second token other
    than "1" and "2" gets the invalid-option text and changes nothing. *)
Lemma option_invalid (OWNER_ID : option pystr) (uid : user_id) (command : pystr)
    (st : state) :
  str_id uid = str_env OWNER_ID ->
  List.length (split (strip command)) = 2%nat ->
  In (hd [] (split (strip command))) [lit "/tryoption"; lit "/fixoption"] ->
  ~ In (nth 1 (split (strip command)) []) [lit "1"; lit "2"] ->
  handle_option_command OWNER_ID uid command st = (Ret invalid_option_message, st).
Proof.
  intros Hid Hlen Hcmd Hval. unfold handle_option_command.
  rewrite Hid, pystr_eqb_refl. simpl negb. cbv iota.
  destruct (split (strip command)) as [|a [|b [|c r]]]; try discriminate.
  simpl hd in Hcmd. simpl nth in Hval.
  apply in_list_In in Hcmd. apply in_list_not_In in Hval.
  simpl List.length. simpl Nat.eqb. simpl negb. cbv iota.
  run. rewrite Hcmd. simpl. rewrite Hval. reflexivity.
Qed.

(** The five replies of the Option Controller, and the globals after it:
    the same, or an option written into one of the two selections. *)
Lemma option_outcomes (OWNER_ID : option pystr) (uid : user_id) (command : pystr)
    (st : state) :
  let r := handle_option_command OWNER_ID uid command st in
  (str_id uid <> str_env OWNER_ID /\ r = (Ret refusal_message, st))
  \/ (str_id uid = str_env OWNER_ID
      /\ (r = (Ret usage_message, st)
          \/ r = (Ret invalid_option_message, st)
          \/ exists v, (v = 1 \/ v = 2)
               /\ (r = (Ret (temporary_message v), set_owner_temp_option (Some v) st)
                   \/ r = (Ret (permanent_message v),
                           set_owner_temp_option None (set_current_option v st))))).
Proof.
  intro r. subst r.
  destruct (list_eq_dec N.eq_dec (str_id uid) (str_env OWNER_ID)) as [Hid|Hid].
  2:{ left. split; [assumption | now apply option_refused]. }
  right. split; [assumption|].
  destruct (Nat.eq_dec (List.length (split (strip command))) 2) as [Hlen|Hlen].
  2:{ left. apply option_usage; auto. }
  destruct (in_list (hd [] (split (strip command))) [lit "/tryoption"; lit "/fixoption"])
    eqn:Hcmd.
  2:{ left. apply option_usage; auto. right. intro K.
      apply in_list_In in K. congruence. }
  destruct (in_list (nth 1 (split (strip command)) []) [lit "1"; lit "2"]) eqn:Hval.
  2:{ right. left. apply option_invalid; auto.
      - now apply in_list_In.
      - intro K. apply in_list_In in K. congruence. }
  right. right.
  apply in_list_In in Hcmd. apply in_list_In in Hval.
  destruct (split (strip command)) as [|cmd [|value [|c rest]]] eqn:Hparts;
    try discriminate.
  simpl in Hcmd, Hval.
  assert (Hv : exists v, (v = 1 \/ v = 2)
             /\ ((value = lit "1" /\ v = 1) \/ (value = lit "2" /\ v = 2))).
  { destruct Hval as [<-|[<-|[]]]; [exists 1 | exists 2]; auto. }
  destruct Hv as (v & Hv12 & Hv).
  exists v. split; [assumption|].
  destruct (option_accepted OWNER_ID uid command cmd value v st Hid Hparts Hv)
    as [Htry Hfix].
  destruct Hcmd as [<-|[<-|[]]]; [left; now apply Htry | right; now apply Hfix].
Qed.

(** The Option Controller never raises. *)
Lemma option_returns (OWNER_ID : option pystr) (uid : user_id) (command : pystr)
    (st : state) :
  exists reply, fst (handle_option_command OWNER_ID uid command st) = Ret reply.
Proof.
  destruct (option_outcomes OWNER_ID uid command st)
    as [[_ ->]|[_ [->|[->|(v & _ & [->| ->])]]]]; eexists; reflexivity.
Qed.

(* ===================================================================== *)
(** * The values the globals take *)
(* ===================================================================== *)

Lemma valid_initial : valid initial_state.
Proof. unfold valid. simpl. intuition lia. Qed.

Lemma valid_after (E : env) (OWNER_ID : option pystr) (c : call) (st : state) :
  valid st -> valid (after E OWNER_ID c st).
Proof.
  unfold valid. intros (Hc & Ht & Hd & Hg).
  destruct c as [history|history|history uid|uid command|uid|encoded_prompt];
    simpl after.
  - destruct (deepinfra_response_frame E history st) as (-> & -> & -> & [->| ->]);
      repeat split; auto; lia.
  - destruct (g4f_response_frame E history st) as (-> & -> & -> & [->| ->]);
      repeat split; auto; lia.
  - unfold get_ai_response, bind, get_state.
    destruct (optint_eqb (option_to_use OWNER_ID uid st) 2).
    + destruct (g4f_response_frame E history st) as (-> & -> & -> & [->| ->]);
        repeat split; auto; lia.
    + destruct (deepinfra_response_frame E history st) as (-> & -> & -> & [->| ->]);
        repeat split; auto; lia.
  - destruct (option_outcomes OWNER_ID uid command st)
      as [[_ ->]|[_ [->|[->|(v & Hv & [->| ->])]]]]; simpl;
      repeat split; auto; destruct Hv as [-> | ->]; auto.
  - simpl. repeat split; auto.
  - destruct (create_image_frame E encoded_prompt st) as (-> & -> & -> & ->).
    repeat split; auto.
Qed.

(** Every state a process reaches is valid. *)
Lemma reachable_valid (E : env) (OWNER_ID : option pystr) (st : state) :
  reachable E OWNER_ID st -> valid st.
Proof.
  induction 1 as [|st c _ IH]; [apply valid_initial | now apply valid_after].
Qed.

(** In a valid state the override is followed exactly when it is set. *)
Lemma valid_truthy (st : state) :
  valid st ->
  truthy_optint (owner_temp_option st)
  = match owner_temp_option st with Some _ => true | None => false end.
Proof.
  intros (_ & [->|[->| ->]] & _); reflexivity.
Qed.

(* ===================================================================== *)
(** * The Response Router *)
(* ===================================================================== *)

Lemma get_ai_response_dispatch (E : env) (OWNER_ID : option pystr)
    (history : list message) (uid : user_id) (st : state) :
  get_ai_response E OWNER_ID history uid st
  = if optint_eqb (option_to_use OWNER_ID uid st) 2
    then g4f_response E history st
    else deepinfra_response E history st.
Proof.
  unfold get_ai_response, bind, get_state.
  destruct (optint_eqb _ 2); reflexivity.
Qed.

Lemma option_to_use_global (OWNER_ID : option pystr) (uid : user_id) (st : state) :
  truthy_id uid = false \/ str_id uid <> str_env OWNER_ID \/ owner_temp_option st = None ->
  option_to_use OWNER_ID uid st = Some (current_option st).
Proof.
  unfold option_to_use, owner_override_active.
  intros [H|[H|H]].
  - now rewrite H.
  - rewrite (pystr_eqb_neq _ _ H), andb_false_r. reflexivity.
  - rewrite H. simpl. rewrite andb_false_r. reflexivity.
Qed.

Lemma option_to_use_override (OWNER_ID : option pystr) (uid : user_id) (st : state)
    (v : Z) :
  valid st ->
  truthy_id uid = true -> str_id uid = str_env OWNER_ID ->
  owner_temp_option st = Some v ->
  option_to_use OWNER_ID uid st = Some v.
Proof.
  intros Hv Ht Hid Hs. unfold option_to_use, owner_override_active.
  rewrite Ht, Hid, pystr_eqb_refl, (valid_truthy st Hv), Hs. reflexivity.
Qed.

(** C1, amended.  In a valid state: a caller that is absent, empty or
    zero, or whose text differs from the owner's, or any caller while the
    override is unset, is served by the provider of the global selection
    (B when it is 2, else A); a caller that is non-empty (non-zero), equal
    as text to the owner, while the override is set, is served by the
    provider of the override.  After such an owner's "/tryoption 1" with
    the global selection at 2, the owner is served by A and every caller
    that is falsy or differs as text is still served by B. *)
Theorem router_precedence (E : env) (OWNER_ID : option pystr)
    (history : list message) (uid : user_id) (st : state) :
  valid st ->
  (truthy_id uid = false \/ str_id uid <> str_env OWNER_ID
   \/ owner_temp_option st = None ->
   get_ai_response E OWNER_ID history uid st
   = if current_option st =? 2
     then g4f_response E history st
     else deepinfra_response E history st)
  /\ (forall v,
        truthy_id uid = true -> str_id uid = str_env OWNER_ID ->
        owner_temp_option st = Some v ->
        get_ai_response E OWNER_ID history uid st
        = if v =? 2
          then g4f_response E history st
          else deepinfra_response E history st)
  /\ (truthy_id uid = true -> str_id uid = str_env OWNER_ID ->
      current_option st = 2 ->
      let st' := snd (handle_option_command OWNER_ID uid (lit "/tryoption 1") st) in
      get_ai_response E OWNER_ID history uid st' = deepinfra_response E history st'
      /\ forall other,
           truthy_id other = false \/ str_id other <> str_env OWNER_ID ->
           get_ai_response E OWNER_ID history other st' = g4f_response E history st').
Proof.
  intro Hv. split; [|split].
  - intro H. rewrite get_ai_response_dispatch, option_to_use_global by assumption.
    reflexivity.
  - intros v Ht Hid Hs.
    rewrite get_ai_response_dispatch, (option_to_use_override _ _ _ v) by assumption.
    reflexivity.
  - intros Ht Hid Hc st'.
    assert (Hst' : st' = set_owner_temp_option (Some 1) st).
    { subst st'.
      destruct (option_accepted OWNER_ID uid (lit "/tryoption 1")
                  (lit "/tryoption") (lit "1") 1 st Hid eq_refl) as [K _];
        [now left|].
      now rewrite K. }
    assert (Hv' : valid st').
    { rewrite Hst'. destruct Hv as (_ & _ & Hd & Hg).
      unfold valid. simpl. rewrite Hc. auto 10. }
    split.
    + rewrite get_ai_response_dispatch, (option_to_use_override _ _ _ 1);
        try assumption; [reflexivity | now rewrite Hst'].
    + intros other Ho.
      rewrite get_ai_response_dispatch, option_to_use_global by tauto.
      rewrite Hst'. simpl. rewrite Hc. reflexivity.
Qed.

Lemma router_precedence_witness :
  let st := mkState 2 None 3 5 [] in
  let st' := snd (handle_option_command (Some (lit "7")) (IdInt 7) (lit "/tryoption 1") st) in
  valid st
  /\ get_ai_response sample_env (Some (lit "7")) question (IdInt 7) st'
     = deepinfra_response sample_env question st'
  /\ get_ai_response sample_env (Some (lit "7")) question (IdInt 8) st'
     = g4f_response sample_env question st'
  /\ get_ai_response sample_env (Some (lit "7")) question IdNone st
     = g4f_response sample_env question st.
Proof.
  intros st st'.
  assert (Hv : valid st) by (unfold valid; simpl; intuition lia).
  destruct (router_precedence sample_env (Some (lit "7")) question (IdInt 7) st Hv)
    as (_ & _ & Htry).
  destruct (Htry eq_refl eq_refl eq_refl) as [Howner Hother].
  destruct (router_precedence sample_env (Some (lit "7")) question IdNone st Hv)
    as (Hglobal & _ & _).
  split; [exact Hv|]. split; [exact Howner|]. split.
  - apply Hother. right. vm_compute. discriminate.
  - exact (Hglobal (or_introl eq_refl)).
Defined.

(** C1 as written fails for an identity that is present but empty: with
    the owner configured as the empty text, the empty caller is equal as
    text to the owner and its "/tryoption 1" is accepted, yet its routing
    call goes by the global selection, to B. *)
Lemma router_empty_identity_counterexample :
  let OWNER_ID := Some [] in
  let uid := IdStr [] in
  let st0 := mkState 2 None 0 0 [] in
  let st := snd (handle_option_command OWNER_ID uid (lit "/tryoption 1") st0) in
  valid st
  /\ uid <> IdNone
  /\ str_id uid = str_env OWNER_ID
  /\ fst (handle_option_command OWNER_ID uid (lit "/tryoption 1") st0)
     = Ret (temporary_message 1)
  /\ current_option st = 2
  /\ owner_temp_option st = Some 1
  /\ get_ai_response sample_env OWNER_ID question uid st
     = g4f_response sample_env question st
  /\ get_ai_response sample_env OWNER_ID question uid st
     <> deepinfra_response sample_env question st.
Proof.
  vm_compute. repeat split; try discriminate; intuition discriminate.
Qed.

(* ===================================================================== *)
(** * Provider Client A *)
(* ===================================================================== *)

(** C2, amended.  The counter of Provider Client A is incremented after
    the POST has returned and its body has been read as JSON, before the
    content is taken out of it.  So: when the POST raises, or the body is
    not JSON, the apology is returned and the counter is unchanged; when
    the JSON lacks the content, the apology is returned and the counter
    has grown by one; on success the content is returned and the counter
    has grown by exactly one. *)
Theorem deepinfra_counter (E : env) (history : list message) (st : state) :
  let answer := requests_post E (log st) deepinfra_url deepinfra_headers
                  (deepinfra_payload history) in
  let r := deepinfra_response E history st in
  (forall e,
      answer = Raise e ->
      fst r = Ret (VStr deepinfra_apology)
      /\ deepinfra_requests (snd r) = deepinfra_requests st)
  /\ (forall response e,
        answer = Ret response -> json response = Raise e ->
        fst r = Ret (VStr deepinfra_apology)
        /\ deepinfra_requests (snd r) = deepinfra_requests st)
  /\ (forall response data e,
        answer = Ret response -> json response = Ret data ->
        content_of data = Raise e ->
        fst r = Ret (VStr deepinfra_apology)
        /\ deepinfra_requests (snd r) = deepinfra_requests st + 1)
  /\ (forall response data content,
        answer = Ret response -> json response = Ret data ->
        content_of data = Ret content ->
        fst r = Ret content
        /\ deepinfra_requests (snd r) = deepinfra_requests st + 1).
Proof.
  intros answer r. subst answer r. rewrite deepinfra_response_paths.
  repeat split; intros;
    repeat match goal with
           | H : _ = _ |- _ => rewrite H; clear H
           end; simpl; reflexivity.
Qed.

Lemma deepinfra_counter_witness :
  let ok := scripted (Ret (mkResponse 200 (Ret (completion_body (lit "Four.")))))
              (Ret VNone) (Ret VNone) (Ret []) (Raise (RequestError [])) in
  let no_choices := scripted (Ret (mkResponse 200 (Ret (VDict []))))
              (Ret VNone) (Ret VNone) (Ret []) (Raise (RequestError [])) in
  let down := scripted (Raise (RequestError (lit "connection refused")))
              (Ret VNone) (Ret VNone) (Ret []) (Raise (RequestError [])) in
  (fst (deepinfra_response ok question initial_state) = Ret (VStr (lit "Four."))
   /\ deepinfra_requests (snd (deepinfra_response ok question initial_state)) = 0 + 1)
  /\ (fst (deepinfra_response no_choices question initial_state)
      = Ret (VStr deepinfra_apology)
      /\ deepinfra_requests (snd (deepinfra_response no_choices question initial_state))
         = 0 + 1)
  /\ (fst (deepinfra_response bad_gateway_env question initial_state)
      = Ret (VStr deepinfra_apology)
      /\ deepinfra_requests (snd (deepinfra_response bad_gateway_env question initial_state))
         = 0)
  /\ (fst (deepinfra_response down question initial_state)
      = Ret (VStr deepinfra_apology)
      /\ deepinfra_requests (snd (deepinfra_response down question initial_state)) = 0).
Proof.
  intros ok no_choices down.
  split; [|split; [|split]].
  - destruct (deepinfra_counter ok question initial_state) as (_ & _ & _ & H).
    exact (H (mkResponse 200 (Ret (completion_body (lit "Four."))))
             (completion_body (lit "Four.")) (VStr (lit "Four."))
             eq_refl eq_refl eq_refl).
  - destruct (deepinfra_counter no_choices question initial_state) as (_ & _ & H & _).
    exact (H (mkResponse 200 (Ret (VDict []))) (VDict [])
             (KeyError (VStr (lit "choices"))) eq_refl eq_refl eq_refl).
  - destruct (deepinfra_counter bad_gateway_env question initial_state) as (_ & H & _).
    exact (H (mkResponse 502
                (Raise (LibraryError (lit "Expecting value: line 1 column 1 (char 0)"))))
             (LibraryError (lit "Expecting value: line 1 column 1 (char 0)"))
             eq_refl eq_refl).
  - destruct (deepinfra_counter down question initial_state) as (H & _).
    exact (H (RequestError (lit "connection refused")) eq_refl).
Defined.

(** C2 as written fails when the network call succeeds with a body that
    is not JSON: the POST returns a response, the function returns the
    apology, and the counter has not moved. *)
Lemma deepinfra_not_json_counterexample :
  exists response,
    requests_post bad_gateway_env (log initial_state) deepinfra_url deepinfra_headers
      (deepinfra_payload question) = Ret response
    /\ fst (deepinfra_response bad_gateway_env question initial_state)
       = Ret (VStr deepinfra_apology)
    /\ deepinfra_requests (snd (deepinfra_response bad_gateway_env question initial_state))
       = deepinfra_requests initial_state
    /\ deepinfra_requests (snd (deepinfra_response bad_gateway_env question initial_state))
       <> deepinfra_requests initial_state + 1.
Proof.
  eexists. split; [reflexivity|]. vm_compute. repeat split. discriminate.
Qed.

(* ===================================================================== *)
(** * Claims about the Option Controller *)
(* ===================================================================== *)

(** C3.  For every caller whose identity differs as text from the
    privileged identity, whatever the command, the Option Controller
    returns the refusal message and leaves the whole state as it was:
    both selections, both counters, and no interaction. *)
Theorem option_controller_refuses (OWNER_ID : option pystr) (uid : user_id)
    (command : pystr) (st : state) :
  str_id uid <> str_env OWNER_ID ->
  handle_option_command OWNER_ID uid command st = (Ret refusal_message, st)
  /\ same_globals st (snd (handle_option_command OWNER_ID uid command st)).
Proof.
  intro H. rewrite (option_refused OWNER_ID uid command st H).
  split; [reflexivity | apply same_globals_refl].
Qed.

Lemma option_controller_refuses_witness :
  str_id (IdInt 42) <> str_env (Some (lit "7"))
  /\ handle_option_command (Some (lit "7")) (IdInt 42) (lit "/fixoption 2") initial_state
     = (Ret refusal_message, initial_state).
Proof.
  assert (H : str_id (IdInt 42) <> str_env (Some (lit "7")))
    by (vm_compute; discriminate).
  split; [exact H|].
  exact (proj1 (option_controller_refuses (Some (lit "7")) (IdInt 42)
                  (lit "/fixoption 2") initial_state H)).
Defined.

(** C4.  For a privileged caller and v in {1, 2}: "/fixoption v" sets the
    global selection to v and clears the override, and replies
    "(U+2705) Global model permanently changed to Option v.";
    "/tryoption v" sets the override to v, leaves the global selection
    (and everything else) untouched, and replies
    "(U+2705) Temporary model switched to Option v (for owner only).".
    After "/fixoption 2" the global selection is 2, the override is
    unset, and a routing call of any caller, privileged or not, is served
    by Provider Client B. *)
Theorem option_controller_fix_and_try (E : env) (OWNER_ID : option pystr)
    (uid : user_id) (v : Z) (st : state) :
  str_id uid = str_env OWNER_ID ->
  v = 1 \/ v = 2 ->
  let digit := if v =? 1 then lit "1" else lit "2" in
  (handle_option_command OWNER_ID uid (lit "/fixoption " ++ digit) st
   = (Ret (9989%N :: lit " Global model permanently changed to Option "
             ++ digit ++ lit "."),
      mkState v None (deepinfra_requests st) (g4f_requests st) (log st)))
  /\ (handle_option_command OWNER_ID uid (lit "/tryoption " ++ digit) st
      = (Ret (9989%N :: lit " Temporary model switched to Option "
                ++ digit ++ lit " (for owner only)."),
         mkState (current_option st) (Some v) (deepinfra_requests st)
                 (g4f_requests st) (log st)))
  /\ (let st' := snd (handle_option_command OWNER_ID uid (lit "/fixoption 2") st) in
      current_option st' = 2
      /\ owner_temp_option st' = None
      /\ forall other history,
           get_ai_response E OWNER_ID history other st' = g4f_response E history st').
Proof.
  intros Hid Hv digit.
  assert (Hfix : forall w, w = 1 \/ w = 2 ->
            handle_option_command OWNER_ID uid (lit "/fixoption " ++ str_int w) st
            = (Ret (permanent_message w),
               mkState w None (deepinfra_requests st) (g4f_requests st) (log st))).
  { intros w Hw.
    destruct (option_accepted OWNER_ID uid (lit "/fixoption " ++ str_int w)
                (lit "/fixoption") (str_int w) w st Hid) as [_ K].
    - destruct Hw as [-> | ->]; reflexivity.
    - destruct Hw as [-> | ->]; [left | right]; split; reflexivity.
    - now rewrite K. }
  assert (Hdigit : digit = str_int v)
    by (subst digit; destruct Hv as [-> | ->]; reflexivity).
  rewrite Hdigit.
  split; [|split].
  - rewrite (Hfix v Hv). destruct Hv as [-> | ->]; reflexivity.
  - destruct (option_accepted OWNER_ID uid (lit "/tryoption " ++ str_int v)
                (lit "/tryoption") (str_int v) v st Hid) as [K _].
    + destruct Hv as [-> | ->]; reflexivity.
    + destruct Hv as [-> | ->]; [left | right]; split; reflexivity.
    + rewrite K by reflexivity. destruct Hv as [-> | ->]; reflexivity.
  - intro st'. subst st'.
    change (lit "/fixoption 2") with (lit "/fixoption " ++ str_int 2).
    rewrite (Hfix 2) by now right. simpl.
    repeat split.
    intros other history.
    rewrite get_ai_response_dispatch, option_to_use_global; [reflexivity|].
    right. right. reflexivity.
Qed.

Lemma option_controller_fix_and_try_witness :
  let st := mkState 1 (Some 1) 4 9 [] in
  let st' := snd (handle_option_command (Some (lit "7")) (IdStr (lit "7"))
                    (lit "/fixoption 2") st) in
  handle_option_command (Some (lit "7")) (IdStr (lit "7")) (lit "/tryoption 2") st
  = (Ret (9989%N :: lit " Temporary model switched to Option 2 (for owner only)."),
     mkState 1 (Some 2) 4 9 [])
  /\ handle_option_command (Some (lit "7")) (IdStr (lit "7")) (lit "/fixoption 2") st
     = (Ret (9989%N :: lit " Global model permanently changed to Option 2."),
        mkState 2 None 4 9 [])
  /\ current_option st' = 2
  /\ owner_temp_option st' = None
  /\ get_ai_response sample_env (Some (lit "7")) question (IdInt 8) st'
     = g4f_response sample_env question st'.
Proof.
  intros st st'.
  destruct (option_controller_fix_and_try sample_env (Some (lit "7"))
              (IdStr (lit "7")) 2 st eq_refl (or_intror eq_refl))
    as (Hfix & Htry & Hc & Ht & Hroute).
  split; [exact Htry|]. split; [exact Hfix|].
  split; [exact Hc|]. split; [exact Ht|].
  exact (Hroute (IdInt 8) question).
Defined.

(** C6.  For every privileged caller: when the command does not split on
    whitespace into exactly two tokens, or its first token is neither
    command name, the usage text is returned; when it does and the second
    token is neither "1" nor "2", the invalid-option text is returned; in
    both cases the state is exactly what it was. *)
Theorem option_controller_rejects (OWNER_ID : option pystr) (uid : user_id)
    (command : pystr) (st : state) :
  str_id uid = str_env OWNER_ID ->
  let parts := split (strip command) in
  (List.length parts <> 2%nat
   \/ ~ In (hd [] parts) [lit "/tryoption"; lit "/fixoption"] ->
   handle_option_command OWNER_ID uid command st = (Ret usage_message, st))
  /\ (List.length parts = 2%nat ->
      In (hd [] parts) [lit "/tryoption"; lit "/fixoption"] ->
      ~ In (nth 1 parts []) [lit "1"; lit "2"] ->
      handle_option_command OWNER_ID uid command st
      = (Ret invalid_option_message, st)).
Proof.
  intros Hid parts. subst parts. split.
  - now apply option_usage.
  - now apply option_invalid.
Qed.

Lemma option_controller_rejects_witness :
  let st := mkState 2 (Some 1) 4 9 [] in
  handle_option_command None IdNone (lit "/fixoption 1 now") st = (Ret usage_message, st)
  /\ handle_option_command None IdNone (lit "/setoption 1") st = (Ret usage_message, st)
  /\ handle_option_command None IdNone (lit "  /tryoption   3 ") st
     = (Ret invalid_option_message, st).
Proof.
  intro st. split; [|split].
  - apply (option_controller_rejects None IdNone (lit "/fixoption 1 now") st eq_refl).
    left. vm_compute. discriminate.
  - apply (option_controller_rejects None IdNone (lit "/setoption 1") st eq_refl).
    right. vm_compute. intuition discriminate.
  - apply (option_controller_rejects None IdNone (lit "  /tryoption   3 ") st eq_refl).
    + reflexivity.
    + vm_compute. auto.
    + vm_compute. intuition discriminate.
Defined.

(* ===================================================================== *)
(** * Provider Client B *)
(* ===================================================================== *)

Lemma low_confidence_str (first : pystr) :
  low_confidence (VStr first)
  = Ret (contains (lit "I don't know") first || (len first <? 20)).
Proof.
  unfold low_confidence. simpl.
  destruct (contains (lit "I don't know") first); reflexivity.
Qed.

Lemma bodies_of_length (hits : list message) (bodies : list pystr) :
  bodies_of hits = Ret bodies -> List.length bodies = List.length hits.
Proof.
  revert bodies. induction hits as [|r hits IH]; simpl; intros bodies H.
  - inversion H. reflexivity.
  - destruct (message_getitem r (lit "body")); [|discriminate].
    destruct (bodies_of hits); [|discriminate].
    inversion H. simpl. f_equal. now apply IH.
Qed.

Lemma bodies_of_found (hits : list message) (bodies : list pystr) :
  Forall2 (fun hit body => dict_get (lit "body") hit = Some body) hits bodies ->
  bodies_of hits = Ret bodies.
Proof.
  induction 1 as [|hit body hits bodies Hb _ IH]; [reflexivity|].
  simpl. unfold message_getitem. now rewrite Hb, IH.
Qed.

(** C5.  When the client is built, the prompt is the "content" of the
    last message ("Hello" for an empty history), and the first completion
    is a text that contains "I don't know" or is shorter than 20
    characters, then, the search and the second completion succeeding:
    the prompt is searched once, the "body" texts of the first 3 hits (of
    all of them when there are fewer) are joined by newlines into
    "<prompt>\n\nUse this web info to answer:\n<web_text>", that text is
    sent once to the same model as the history of the single message
    {"role": "user", "content": <that text>}, the second completion is
    what is returned, and the Provider-B counter has grown by exactly
    one.  The interactions are exactly these four, in this order. *)
Theorem g4f_fallback (E : env) (history : list message) (st : state)
    (prompt first : pystr) (hits : list message) (bodies : list pystr)
    (answer : value) :
  let model := lit "gpt-4o-mini" in
  let web_text := join [10%N] bodies in
  let retry : list message :=
    [ [ (lit "role", lit "user");
        (lit "content",
         prompt ++ [10%N; 10%N] ++ lit "Use this web info to answer:" ++ [10%N]
           ++ web_text) ] ] in
  let after_client := log st ++ [EvClient] in
  let after_first := after_client ++ [EvCreate model history] in
  let after_search := after_first ++ [EvSearch prompt] in
  Client E (log st) = Ret tt ->
  match history with
  | [] => prompt = lit "Hello"
  | _ :: _ => dict_get (lit "content") (last history []) = Some prompt
  end ->
  completions_create E after_client model history = Ret (VStr first) ->
  contains (lit "I don't know") first = true \/ len first < 20 ->
  DDGS_text E after_first prompt = Ret hits ->
  Forall2 (fun hit body => dict_get (lit "body") hit = Some body)
          (firstn 3 hits) bodies ->
  completions_create E after_search model retry = Ret answer ->
  let r := g4f_response E history st in
  fst r = Ret answer
  /\ g4f_requests (snd r) = g4f_requests st + 1
  /\ deepinfra_requests (snd r) = deepinfra_requests st
  /\ current_option (snd r) = current_option st
  /\ owner_temp_option (snd r) = owner_temp_option st
  /\ log (snd r)
     = log st ++ [EvClient; EvCreate model history; EvSearch prompt;
                  EvCreate model retry]
  /\ (List.length bodies <= 3)%nat.
Proof.
  intros model web_text retry after_client after_first after_search.
  subst model web_text retry after_client after_first after_search.
  intros HC HP H1 Hlow HS HB H2 r.
  assert (Hl : contains (lit "I don't know") first || (len first <? 20) = true).
  { destruct Hlow as [-> | Hlen]; [reflexivity|].
    apply Z.ltb_lt in Hlen. rewrite Hlen. apply orb_true_r. }
  assert (HP' : prompt_of history = Ret prompt).
  { unfold prompt_of, message_getitem. destruct history; [now subst|].
    now rewrite HP. }
  pose proof (bodies_of_found _ _ HB) as HB'.
  subst r. rewrite g4f_response_paths. cbv zeta.
  rewrite HC, HP'.
  change (log (emit EvClient st)) with (log st ++ [EvClient]).
  change g4f_model with (lit "gpt-4o-mini").
  rewrite H1, low_confidence_str, Hl.
  change (log (set_g4f_requests (g4f_requests st + 1)
                 (emit (EvCreate (lit "gpt-4o-mini") history) (emit EvClient st))))
    with ((log st ++ [EvClient]) ++ [EvCreate (lit "gpt-4o-mini") history]).
  rewrite HS, HB'.
  change (log (emit (EvSearch prompt)
                 (set_g4f_requests (g4f_requests st + 1)
                    (emit (EvCreate (lit "gpt-4o-mini") history) (emit EvClient st)))))
    with (((log st ++ [EvClient]) ++ [EvCreate (lit "gpt-4o-mini") history])
          ++ [EvSearch prompt]).
  change (single_message (combined_prompt prompt (join nl bodies)))
    with ([ [ (lit "role", lit "user");
              (lit "content",
               prompt ++ [10%N; 10%N] ++ lit "Use this web info to answer:"
                 ++ [10%N] ++ join [10%N] bodies) ] ] : list message).
  rewrite H2.
  simpl. repeat split.
  - repeat rewrite <- app_assoc. reflexivity.
  - rewrite (bodies_of_length _ _ HB'), length_firstn. apply Nat.le_min_l.
Qed.

Lemma g4f_fallback_witness :
  let r := g4f_response unsure_env question initial_state in
  fst r = Ret (VStr (lit "Two plus two is four."))
  /\ g4f_requests (snd r) = 1
  /\ log (snd r)
     = [ EvClient;
         EvCreate (lit "gpt-4o-mini") question;
         EvSearch (lit "What is 2+2?");
         EvCreate (lit "gpt-4o-mini")
           [ [ (lit "role", lit "user");
               (lit "content",
                lit "What is 2+2?" ++ [10%N; 10%N]
                  ++ lit "Use this web info to answer:" ++ [10%N]
                  ++ lit "2 + 2 = 4" ++ [10%N] ++ lit "four" ++ [10%N]
                  ++ lit "IV") ] ] ].
Proof.
  intro r.
  destruct (g4f_fallback unsure_env question initial_state
              (lit "What is 2+2?") (lit "I don't know.")
              [ [ (lit "title", lit "sum"); (lit "body", lit "2 + 2 = 4") ];
                [ (lit "body", lit "four") ];
                [ (lit "body", lit "IV") ];
                [ (lit "href", lit "no body here") ] ]
              [ lit "2 + 2 = 4"; lit "four"; lit "IV" ]
              (VStr (lit "Two plus two is four."))
              eq_refl eq_refl eq_refl (or_introl eq_refl) eq_refl)
    as (Hr & Hg & _ & _ & _ & Hl & _).
  - repeat constructor.
  - reflexivity.
  - split; [exact Hr|]. split; [exact Hg | exact Hl].
Defined.

(** A first completion of 20 characters or more without the disclaimer
    is returned as it is, with no search and no second completion. *)
Lemma g4f_confident (E : env) (history : list message) (st : state)
    (prompt first : pystr) :
  Client E (log st) = Ret tt ->
  prompt_of history = Ret prompt ->
  completions_create E (log (emit EvClient st)) g4f_model history = Ret (VStr first) ->
  contains (lit "I don't know") first = false -> 20 <= len first ->
  fst (g4f_response E history st) = Ret (VStr first)
  /\ g4f_requests (snd (g4f_response E history st)) = g4f_requests st + 1
  /\ log (snd (g4f_response E history st))
     = log st ++ [EvClient; EvCreate g4f_model history].
Proof.
  intros HC HP H1 Hc Hlen. rewrite g4f_response_paths.
  cbv zeta. rewrite HC, HP, H1, low_confidence_str, Hc.
  apply Z.ltb_ge in Hlen. rewrite Hlen. simpl.
  repeat split. now rewrite <- app_assoc.
Qed.

(** When the search raises, nothing is retried: the error text is
    returned, and the first completion has been counted. *)
Lemma g4f_search_fails (E : env) (history : list message) (st : state)
    (prompt first : pystr) (e : exn) :
  Client E (log st) = Ret tt ->
  prompt_of history = Ret prompt ->
  completions_create E (log (emit EvClient st)) g4f_model history = Ret (VStr first) ->
  contains (lit "I don't know") first = true \/ len first < 20 ->
  DDGS_text E
    (log (set_g4f_requests (g4f_requests st + 1)
            (emit (EvCreate g4f_model history) (emit EvClient st)))) prompt
  = Raise e ->
  fst (g4f_response E history st) = Ret (VStr (lit "Error: " ++ str_exn E e))
  /\ g4f_requests (snd (g4f_response E history st)) = g4f_requests st + 1
  /\ log (snd (g4f_response E history st))
     = log st ++ [EvClient; EvCreate g4f_model history; EvSearch prompt;
                  EvPrint (lit "g4f error: " ++ str_exn E e)].
Proof.
  intros HC HP H1 Hlow HS.
  assert (Hl : contains (lit "I don't know") first || (len first <? 20) = true).
  { destruct Hlow as [-> | Hlen]; [reflexivity|].
    apply Z.ltb_lt in Hlen. rewrite Hlen. apply orb_true_r. }
  rewrite g4f_response_paths. cbv zeta.
  rewrite HC, HP, H1, low_confidence_str, Hl, HS. unfold g4f_failed. simpl.
  repeat split. repeat rewrite <- app_assoc. reflexivity.
Qed.

(** Provider Client B never raises. *)
Lemma g4f_returns (E : env) (history : list message) (st : state) :
  exists v, fst (g4f_response E history st) = Ret v.
Proof.
  rewrite g4f_response_paths. unfold g4f_failed. cbv zeta.
  split_cases; eexists; reflexivity.
Qed.

(** Provider Client A never raises. *)
Lemma deepinfra_returns (E : env) (history : list message) (st : state) :
  exists v, fst (deepinfra_response E history st) = Ret v.
Proof.
  rewrite deepinfra_response_paths. unfold deepinfra_failed. cbv zeta.
  split_cases; eexists; reflexivity.
Qed.

(* ===================================================================== *)
(** * The Image Proxy *)
(* ===================================================================== *)

Lemma raise_for_status_ok (r : response) :
  200 <= status_code r <= 299 -> raise_for_status r = Ret tt.
Proof.
  intros [H1 H2]. unfold raise_for_status.
  apply Z.leb_le in H1. apply Z.leb_le in H2. now rewrite H1, H2.
Qed.

Lemma raise_for_status_error (r : response) :
  ~ (200 <= status_code r <= 299) ->
  raise_for_status r = Raise (HTTPStatusError (status_code r)).
Proof.
  intro H. unfold raise_for_status.
  destruct (200 <=? status_code r) eqn:H1; [|reflexivity].
  destruct (status_code r <=? 299) eqn:H2; [|reflexivity].
  apply Z.leb_le in H1. apply Z.leb_le in H2. lia.
Qed.

(** C7.  The Image Proxy always returns, never raises, and leaves the
    globals alone.  It returns the absent result when the request raises
    (transport error), when the status is not 2xx, when the body is not
    JSON, when the JSON has no "image", and when decoding the image
    raises; otherwise it returns the buffer holding the base64 decoding
    of the "image" field. *)
Theorem image_proxy_total (E : env) (encoded_prompt : pystr) (st : state) :
  let answer := cl_get E (log st) (lit "/ai/image/?prompt=" ++ encoded_prompt) in
  let r := create_image E encoded_prompt st in
  (exists result, fst r = Ret result)
  /\ same_globals st (snd r)
  /\ (forall e, answer = Raise e -> fst r = Ret None)
  /\ (forall response,
        answer = Ret response -> ~ (200 <= status_code response <= 299) ->
        fst r = Ret None)
  /\ (forall response e,
        answer = Ret response -> json response = Raise e -> fst r = Ret None)
  /\ (forall response data e,
        answer = Ret response -> json response = Ret data ->
        getitem_key data (lit "image") = Raise e -> fst r = Ret None)
  /\ (forall response data image e,
        answer = Ret response -> json response = Ret data ->
        getitem_key data (lit "image") = Ret image ->
        b64decode E image = Raise e -> fst r = Ret None)
  /\ (forall response data image bytes,
        answer = Ret response -> 200 <= status_code response <= 299 ->
        json response = Ret data ->
        getitem_key data (lit "image") = Ret image ->
        b64decode E image = Ret bytes ->
        fst r = Ret (Some (mkBytesIO bytes))).
Proof.
  intros answer r. subst answer r.
  split; [|split; [apply create_image_frame|]].
  { unfold create_image. run. split_cases; eexists; reflexivity. }
  unfold create_image. run.
  repeat split.
  - intros e H. rewrite H. destruct e; reflexivity.
  - intros response H Hs. rewrite H, (raise_for_status_error _ Hs). reflexivity.
  - intros response e H Hj. rewrite H, Hj.
    destruct (raise_for_status response) as [|e']; [destruct e | destruct e'];
      reflexivity.
  - intros response data e H Hj Hi. rewrite H, Hj, Hi.
    destruct (raise_for_status response) as [|e']; [destruct e | destruct e'];
      reflexivity.
  - intros response data image e H Hj Hi Hd. rewrite H, Hj, Hi, Hd.
    destruct (raise_for_status response) as [|e']; [destruct e | destruct e'];
      reflexivity.
  - intros response data image bytes H Hs Hj Hi Hd.
    rewrite H, (raise_for_status_ok _ Hs), Hj, Hi, Hd. reflexivity.
Qed.

Lemma image_proxy_total_witness :
  let picture := mkResponse 200 (Ret (VDict [ (lit "image", VStr (lit "aGk=")) ])) in
  let missing := mkResponse 404 (Ret (VDict [ (lit "image", VStr (lit "aGk=")) ])) in
  let page := mkResponse 200 (Raise (LibraryError (lit "Expecting value"))) in
  let empty := mkResponse 200 (Ret (VDict [ (lit "error", VStr (lit "busy")) ])) in
  let broken := mkResponse 200 (Ret (VDict [ (lit "image", VStr (lit "aGk")) ])) in
  fst (create_image (image_env (Ret picture)) (lit "cat") initial_state)
  = Ret (Some (mkBytesIO [Byte.x68; Byte.x69]))
  /\ fst (create_image (image_env (Ret missing)) (lit "cat") initial_state) = Ret None
  /\ fst (create_image (image_env (Ret page)) (lit "cat") initial_state) = Ret None
  /\ fst (create_image (image_env (Ret empty)) (lit "cat") initial_state) = Ret None
  /\ fst (create_image (image_env (Ret broken)) (lit "cat") initial_state) = Ret None
  /\ fst (create_image (image_env (Raise (RequestError (lit "timed out"))))
            (lit "cat") initial_state) = Ret None.
Proof.
  intros picture missing page empty broken.
  split; [|split; [|split; [|split; [|split]]]].
  - destruct (image_proxy_total (image_env (Ret picture)) (lit "cat") initial_state)
      as (_ & _ & _ & _ & _ & _ & _ & H).
    apply (H picture (VDict [ (lit "image", VStr (lit "aGk=")) ]) (VStr (lit "aGk=")));
      try reflexivity.
    simpl. lia.
  - destruct (image_proxy_total (image_env (Ret missing)) (lit "cat") initial_state)
      as (_ & _ & _ & H & _).
    apply (H missing); [reflexivity | simpl; lia].
  - destruct (image_proxy_total (image_env (Ret page)) (lit "cat") initial_state)
      as (_ & _ & _ & _ & H & _).
    apply (H page (LibraryError (lit "Expecting value"))); reflexivity.
  - destruct (image_proxy_total (image_env (Ret empty)) (lit "cat") initial_state)
      as (_ & _ & _ & _ & _ & H & _).
    apply (H empty (VDict [ (lit "error", VStr (lit "busy")) ])
             (KeyError (VStr (lit "image")))); reflexivity.
  - destruct (image_proxy_total (image_env (Ret broken)) (lit "cat") initial_state)
      as (_ & _ & _ & _ & _ & _ & H & _).
    apply (H broken (VDict [ (lit "image", VStr (lit "aGk")) ]) (VStr (lit "aGk"))
             ValueError); reflexivity.
  - destruct (image_proxy_total (image_env (Raise (RequestError (lit "timed out"))))
                (lit "cat") initial_state) as (_ & _ & H & _).
    apply (H (RequestError (lit "timed out"))). reflexivity.
Defined.

(* ===================================================================== *)
(** * The Status Reporter *)
(* ===================================================================== *)

Lemma option_display_counters (st st' : state) :
  deepinfra_requests st' = deepinfra_requests st ->
  g4f_requests st' = g4f_requests st ->
  option_display st' = option_display st.
Proof. unfold option_display. now intros -> ->. Qed.

(** The report is its nine lines joined by newlines, and the state is
    handed back untouched. *)
Lemma status_text (OWNER_ID : option pystr) (uid : user_id) (st : state) :
  handle_status_command OWNER_ID uid st
  = (Ret (join nl (report_lines (deepinfra_requests st) (g4f_requests st)
                     (current_line OWNER_ID uid st))), st).
Proof.
  unfold handle_status_command, bind, get_state, ret.
  f_equal. f_equal.
  unfold option_display, report_lines, join, nl.
  repeat rewrite <- app_assoc. simpl. repeat rewrite <- app_assoc. reflexivity.
Qed.

Lemma str_optint_decimal_or_none (o : option Z) (c : codepoint) :
  decimal_char c = false -> free_of c (lit "None") = true ->
  free_of c (str_optint o) = true.
Proof.
  intros Hd Hn. destruct o as [v|]; simpl; [|exact Hn].
  apply free_of_decimal; [exact Hd | apply str_int_decimal].
Qed.

Lemma current_line_no_newline (OWNER_ID : option pystr) (uid : user_id) (st : state) :
  free_of newline (current_line OWNER_ID uid st) = true.
Proof.
  unfold current_line.
  destruct (_ && _); repeat rewrite free_of_app.
  - rewrite str_optint_decimal_or_none; reflexivity.
  - rewrite str_int_no_newline. reflexivity.
Qed.

Lemma report_lines_no_newline (a b : Z) (current : pystr) :
  free_of newline current = true ->
  forallb (free_of newline) (report_lines a b current) = true.
Proof.
  intro H. unfold report_lines. cbn [forallb].
  repeat rewrite free_of_app. repeat rewrite str_int_no_newline. rewrite H.
  reflexivity.
Qed.

Lemma status_lines (OWNER_ID : option pystr) (uid : user_id) (st : state) :
  lines (join nl (report_lines (deepinfra_requests st) (g4f_requests st)
                    (current_line OWNER_ID uid st)))
  = report_lines (deepinfra_requests st) (g4f_requests st) (current_line OWNER_ID uid st).
Proof.
  apply lines_join; [discriminate|].
  apply report_lines_no_newline, current_line_no_newline.
Qed.

Lemma current_line_prefix (OWNER_ID : option pystr) (uid : user_id) (st : state) :
  startswith (lit "Current Model") (current_line OWNER_ID uid st) = true.
Proof. unfold current_line. destruct (_ && _); reflexivity. Qed.

Lemma occurrences_free (c : codepoint) (p s : pystr) :
  free_of c s = true -> occurrences (c :: p) s = 0%nat.
Proof.
  induction s as [|x s IH]; simpl; [reflexivity|].
  intro H. apply andb_true_iff in H as [Hx Hs].
  apply negb_true_iff in Hx. rewrite N.eqb_sym in Hx. rewrite Hx, (IH Hs).
  reflexivity.
Qed.

Lemma occurrences_skip (c : codepoint) (p a b : pystr) :
  free_of c a = true -> occurrences (c :: p) (a ++ b) = occurrences (c :: p) b.
Proof.
  induction a as [|x a IH]; [reflexivity|].
  intro H. simpl in H. apply andb_true_iff in H as [Hx Ha].
  apply negb_true_iff in Hx. rewrite N.eqb_sym in Hx.
  change ((x :: a) ++ b) with (x :: (a ++ b)).
  cbn [occurrences startswith]. rewrite Hx, (IH Ha). reflexivity.
Qed.

Lemma current_line_once (OWNER_ID : option pystr) (uid : user_id) (st : state) :
  occurrences (lit "Current Model") (current_line OWNER_ID uid st) = 1%nat.
Proof.
  unfold current_line.
  destruct (_ && _).
  - change (lit "Current Model: Option " ++ str_optint (owner_temp_option st)
              ++ lit " (temporary for owner)")
      with (capital_C :: (lit "urrent Model: Option "
                            ++ str_optint (owner_temp_option st)
                            ++ lit " (temporary for owner)")).
    change (lit "Current Model") with (capital_C :: lit "urrent Model").
    cbn [occurrences]. rewrite occurrences_free; [reflexivity|].
    repeat rewrite free_of_app.
    rewrite str_optint_decimal_or_none; reflexivity.
  - change (lit "Current Model: Option " ++ str_int (current_option st))
      with (capital_C :: (lit "urrent Model: Option " ++ str_int (current_option st))).
    change (lit "Current Model") with (capital_C :: lit "urrent Model").
    cbn [occurrences]. rewrite occurrences_free; [reflexivity|].
    rewrite free_of_app,
      (free_of_decimal capital_C (str_int (current_option st)) eq_refl
         (str_int_decimal _)).
    reflexivity.
Qed.

Lemma join_cons (sep x : pystr) (l : list pystr) :
  l <> [] -> join sep (x :: l) = x ++ sep ++ join sep l.
Proof. destruct l; [congruence | reflexivity]. Qed.

(** When only the last of the joined lines can hold [c], a text that
    starts with [c] occurs in the whole as often as in the last line. *)
Lemma occurrences_join_last (c : codepoint) (p : pystr) (ls : list pystr)
    (final : pystr) :
  c <> newline -> forallb (free_of c) ls = true ->
  occurrences (c :: p) (join nl (ls ++ [final])) = occurrences (c :: p) final.
Proof.
  intros Hc. induction ls as [|l ls IH]; [reflexivity|].
  intro H. simpl in H. apply andb_true_iff in H as [Hl Hls].
  change ((l :: ls) ++ [final]) with (l :: (ls ++ [final])).
  rewrite join_cons by (destruct ls; discriminate).
  rewrite occurrences_skip by assumption.
  rewrite occurrences_skip; [now apply IH|].
  unfold nl, free_of. cbn [forallb].
  apply N.eqb_neq in Hc. rewrite N.eqb_sym in Hc. now rewrite Hc.
Qed.

(** The text "Current Model" occurs once in the whole report. *)
Lemma status_one_mention (OWNER_ID : option pystr) (uid : user_id) (st : state) :
  occurrences (lit "Current Model")
    (join nl (report_lines (deepinfra_requests st) (g4f_requests st)
                (current_line OWNER_ID uid st))) = 1%nat.
Proof.
  change (lit "Current Model") with (capital_C :: lit "urrent Model").
  change (report_lines (deepinfra_requests st) (g4f_requests st)
            (current_line OWNER_ID uid st))
    with (removelast (report_lines (deepinfra_requests st) (g4f_requests st) [])
            ++ [current_line OWNER_ID uid st]).
  rewrite occurrences_join_last.
  - apply current_line_once.
  - discriminate.
  - cbn [report_lines removelast forallb]. repeat rewrite free_of_app.
    rewrite !(free_of_decimal capital_C (str_int _) eq_refl (str_int_decimal _)).
    reflexivity.
Qed.

Lemma decimal_not_labelled (a b : Z) :
  str_int a <> str_int b ++ lit " (temporary for owner)".
Proof.
  intro H. pose proof (str_int_decimal a) as K. rewrite H, forallb_app in K.
  apply andb_true_iff in K as [_ K]. discriminate K.
Qed.

Lemma current_line_override (OWNER_ID : option pystr) (uid : user_id) (st : state)
    (v : Z) :
  valid st -> str_id uid = str_env OWNER_ID -> owner_temp_option st = Some v ->
  current_line OWNER_ID uid st
  = lit "Current Model: Option " ++ str_int v ++ lit " (temporary for owner)".
Proof.
  intros Hv Hid Hs. unfold current_line.
  rewrite Hid, pystr_eqb_refl, (valid_truthy st Hv), Hs. reflexivity.
Qed.

Lemma current_line_global (OWNER_ID : option pystr) (uid : user_id) (st : state) :
  str_id uid <> str_env OWNER_ID \/ owner_temp_option st = None ->
  current_line OWNER_ID uid st
  = lit "Current Model: Option " ++ str_int (current_option st).
Proof.
  unfold current_line. intros [H|H].
  - now rewrite (pystr_eqb_neq _ _ H).
  - rewrite H. simpl. now rewrite andb_false_r.
Qed.

(** C9.  For every caller and every state the Status Reporter returns a
    report and hands the state back unchanged.  The report is nine lines:
    the fourth and the seventh carry the two counters, the ninth is the
    only line that starts with "Current Model", and that text occurs once
    in the whole report.  In a valid state the ninth line shows the
    override with the label "temporary for owner" when the caller equals
    the owner as text and the override is set, and the global selection
    when the caller differs or the override is unset. *)
Theorem status_report (OWNER_ID : option pystr) (uid : user_id) (st : state) :
  exists report current,
    handle_status_command OWNER_ID uid st = (Ret report, st)
    /\ lines report
       = report_lines (deepinfra_requests st) (g4f_requests st) current
    /\ nth_error (lines report) 3
       = Some (lit "Total Requests: " ++ str_int (deepinfra_requests st))
    /\ nth_error (lines report) 6
       = Some (lit "Total Requests: " ++ str_int (g4f_requests st))
    /\ filter (startswith (lit "Current Model")) (lines report) = [current]
    /\ occurrences (lit "Current Model") report = 1%nat
    /\ (forall v,
          valid st -> str_id uid = str_env OWNER_ID ->
          owner_temp_option st = Some v ->
          current = lit "Current Model: Option " ++ str_int v
                      ++ lit " (temporary for owner)")
    /\ (str_id uid <> str_env OWNER_ID \/ owner_temp_option st = None ->
        current = lit "Current Model: Option " ++ str_int (current_option st)).
Proof.
  exists (join nl (report_lines (deepinfra_requests st) (g4f_requests st)
                     (current_line OWNER_ID uid st))).
  exists (current_line OWNER_ID uid st).
  rewrite status_lines.
  split; [apply status_text|]. split; [reflexivity|].
  split; [reflexivity|]. split; [reflexivity|]. split; [|split; [|split]].
  - unfold report_lines. cbn [filter].
    rewrite current_line_prefix. reflexivity.
  - apply status_one_mention.
  - intros v. apply current_line_override.
  - apply current_line_global.
Qed.

Lemma status_report_witness :
  let owner_view := mkState 1 (Some 2) 12 7 [] in
  valid owner_view
  /\ exists report,
       handle_status_command (Some (lit "7")) (IdInt 7) owner_view
       = (Ret report, owner_view)
       /\ lines report
          = [ bar_chart :: lit " Model Status";
              [];
              lit "Option 1 " ++ [arrow] ++ lit " DeepInfra";
              lit "Total Requests: 12";
              [];
              lit "Option 2 " ++ [arrow] ++ lit " g4f + DuckDuckGo";
              lit "Total Requests: 7";
              [];
              lit "Current Model: Option 2 (temporary for owner)" ].
Proof.
  intro owner_view.
  assert (Hv : valid owner_view) by (unfold valid; simpl; intuition lia).
  split; [exact Hv|].
  destruct (status_report (Some (lit "7")) (IdInt 7) owner_view)
    as (report & current & Hrun & Hlines & _ & _ & _ & _ & Hover & _).
  exists report. split; [exact Hrun|].
  rewrite Hlines, (Hover 2 Hv eq_refl eq_refl). reflexivity.
Defined.

(** C8.  From any state, a privileged "/fixoption 1", then a privileged
    "/fixoption 2", then a status request of any caller: the report's
    last line is "Current Model: Option 2", its counter lines carry the
    counters of the starting state, and in the final state the global
    selection is 2, the override is unset, and both counters and the log
    are those of the starting state. *)
Theorem fix_fix_status (OWNER_ID : option pystr) (uid viewer : user_id) (st : state) :
  str_id uid = str_env OWNER_ID ->
  exists report,
    (handle_option_command OWNER_ID uid (lit "/fixoption 1") ;;;
     handle_option_command OWNER_ID uid (lit "/fixoption 2") ;;;
     handle_status_command OWNER_ID viewer)%py st
    = (Ret report,
       mkState 2 None (deepinfra_requests st) (g4f_requests st) (log st))
    /\ lines report
       = report_lines (deepinfra_requests st) (g4f_requests st)
           (lit "Current Model: Option 2").
Proof.
  intro Hid.
  destruct (option_accepted OWNER_ID uid (lit "/fixoption 1") (lit "/fixoption")
              (lit "1") 1 st Hid eq_refl) as [_ H1]; [now left|].
  specialize (H1 eq_refl).
  set (st1 := set_owner_temp_option None (set_current_option 1 st)) in *.
  destruct (option_accepted OWNER_ID uid (lit "/fixoption 2") (lit "/fixoption")
              (lit "2") 2 st1 Hid eq_refl) as [_ H2]; [now right|].
  specialize (H2 eq_refl).
  set (st2 := set_owner_temp_option None (set_current_option 2 st1)) in *.
  eexists. unfold bind at 1. rewrite H1. unfold bind. rewrite H2.
  rewrite (status_text OWNER_ID viewer st2).
  split; [reflexivity|].
  rewrite status_lines, current_line_global by (right; reflexivity).
  reflexivity.
Qed.

Lemma fix_fix_status_witness :
  exists report,
    (handle_option_command (Some (lit "7")) (IdInt 7) (lit "/fixoption 1") ;;;
     handle_option_command (Some (lit "7")) (IdInt 7) (lit "/fixoption 2") ;;;
     handle_status_command (Some (lit "7")) (IdInt 99))%py (mkState 1 (Some 1) 3 5 [])
    = (Ret report, mkState 2 None 3 5 [])
    /\ lines report
       = [ bar_chart :: lit " Model Status";
           [];
           lit "Option 1 " ++ [arrow] ++ lit " DeepInfra";
           lit "Total Requests: 3";
           [];
           lit "Option 2 " ++ [arrow] ++ lit " g4f + DuckDuckGo";
           lit "Total Requests: 5";
           [];
           lit "Current Model: Option 2" ].
Proof.
  exact (fix_fix_status (Some (lit "7")) (IdInt 7) (IdInt 99)
           (mkState 1 (Some 1) 3 5 []) eq_refl).
Defined.

(* ===================================================================== *)
(** * The privileged check *)
(* ===================================================================== *)

Lemma refusal_is_no_other_reply (v : Z) :
  usage_message <> refusal_message
  /\ invalid_option_message <> refusal_message
  /\ temporary_message v <> refusal_message
  /\ permanent_message v <> refusal_message.
Proof. repeat split; discriminate. Qed.

(** C10, amended.  In the Option Controller and in the Status Reporter
    the privileged check is exactly the equality of the caller's text
    with the text of OWNER_ID: the controller refuses if and only if the
    texts differ, and, in a valid state with the override set, the status
    shows the override if and only if the texts are equal.  In the router
    the check is that equality together with the caller identity being
    non-empty (non-zero, not absent): only then is the override used.
    With OWNER_ID unset the owner's text is "None", and a caller whose
    text is "None" passes the controller's check and changes the
    selection state. *)
Theorem privileged_check (OWNER_ID : option pystr) (uid : user_id)
    (command : pystr) (st : state) :
  (fst (handle_option_command OWNER_ID uid command st) = Ret refusal_message
   <-> str_id uid <> str_env OWNER_ID)
  /\ (forall v,
        valid st -> owner_temp_option st = Some v ->
        (current_line OWNER_ID uid st
         = lit "Current Model: Option " ++ str_int v ++ lit " (temporary for owner)"
         <-> str_id uid = str_env OWNER_ID))
  /\ (forall v,
        valid st -> owner_temp_option st = Some v ->
        (truthy_id uid = true /\ str_id uid = str_env OWNER_ID ->
         option_to_use OWNER_ID uid st = Some v)
        /\ (truthy_id uid = false \/ str_id uid <> str_env OWNER_ID ->
            option_to_use OWNER_ID uid st = Some (current_option st)))
  /\ str_env None = lit "None"
  /\ (OWNER_ID = None -> str_id uid = lit "None" ->
      handle_option_command OWNER_ID uid (lit "/fixoption 2") st
      = (Ret (permanent_message 2),
         mkState 2 None (deepinfra_requests st) (g4f_requests st) (log st))
      /\ handle_option_command OWNER_ID uid (lit "/tryoption 2") st
         = (Ret (temporary_message 2),
            mkState (current_option st) (Some 2) (deepinfra_requests st)
                    (g4f_requests st) (log st))).
Proof.
  split; [|split; [|split; [|split]]].
  - split.
    + intros H Hid.
      destruct (option_outcomes OWNER_ID uid command st)
        as [[Hne _]|[_ [K|[K|(v & _ & [K|K])]]]];
        [contradiction | | | |]; rewrite K in H; simpl in H;
        inversion H as [H']; revert H';
        apply (refusal_is_no_other_reply 0) || apply (refusal_is_no_other_reply v).
    + intro H. now rewrite option_refused.
  - intros v Hv Hs. split.
    + intro H.
      destruct (list_eq_dec N.eq_dec (str_id uid) (str_env OWNER_ID)) as [|Hne];
        [assumption|].
      rewrite current_line_global in H by now left.
      apply app_inv_head in H. now apply decimal_not_labelled in H.
    + intro Hid. now apply current_line_override.
  - intros v Hv Hs. split.
    + intros [Ht Hid]. now apply option_to_use_override.
    + intro H. apply option_to_use_global. tauto.
  - reflexivity.
  - intros -> Hid. split.
    + destruct (option_accepted None uid (lit "/fixoption 2") (lit "/fixoption")
                  (lit "2") 2 st Hid eq_refl) as [_ K]; [now right|].
      now rewrite K.
    + destruct (option_accepted None uid (lit "/tryoption 2") (lit "/tryoption")
                  (lit "2") 2 st Hid eq_refl) as [K _]; [now right|].
      now rewrite K.
Qed.

Lemma privileged_check_witness :
  let st := mkState 1 (Some 2) 0 0 [] in
  valid st
  /\ handle_option_command None (IdStr (lit "None")) (lit "/fixoption 2") st
     = (Ret (permanent_message 2), mkState 2 None 0 0 [])
  /\ fst (handle_option_command None (IdInt 5) (lit "/fixoption 2") st)
     = Ret refusal_message
  /\ option_to_use None (IdStr (lit "None")) st = Some 2
  /\ option_to_use None IdNone st = Some 1
  /\ current_line None (IdStr (lit "None")) st
     = lit "Current Model: Option 2 (temporary for owner)".
Proof.
  intro st.
  assert (Hv : valid st) by (unfold valid; simpl; intuition lia).
  destruct (privileged_check None (IdStr (lit "None")) (lit "/fixoption 2") st)
    as (_ & Hstatus & Hroute & _ & Hnone).
  destruct (privileged_check None (IdInt 5) (lit "/fixoption 2") st)
    as (Hrefuse & _).
  destruct (privileged_check None IdNone (lit "/fixoption 2") st)
    as (_ & _ & Habsent & _).
  split; [exact Hv|]. split; [|split; [|split; [|split]]].
  - exact (proj1 (Hnone eq_refl eq_refl)).
  - apply Hrefuse. vm_compute. discriminate.
  - exact (proj1 (Hroute 2 Hv eq_refl) (conj eq_refl eq_refl)).
  - exact (proj2 (Habsent 2 Hv eq_refl) (or_introl eq_refl)).
  - exact (proj2 (Hstatus 2 Hv eq_refl) eq_refl).
Defined.

(** C10 as written fails for the router: with OWNER_ID unset, the absent
    caller equals the owner as text ("None" on both sides) and the
    override is set, yet its routing call goes by the global selection,
    to A, while the Status Reporter shows the same caller the override. *)
Lemma router_absent_identity_counterexample :
  let st := mkState 1 (Some 2) 0 0 [] in
  valid st
  /\ str_id IdNone = str_env None
  /\ owner_temp_option st = Some 2
  /\ option_to_use None IdNone st = Some 1
  /\ option_to_use None IdNone st <> owner_temp_option st
  /\ get_ai_response sample_env None question IdNone st
     = deepinfra_response sample_env question st
  /\ get_ai_response sample_env None question IdNone st
     <> g4f_response sample_env question st
  /\ current_line None IdNone st
     = lit "Current Model: Option 2 (temporary for owner)".
Proof.
  vm_compute. repeat split; try discriminate; intuition discriminate.
Qed.

(* ===================================================================== *)
(** * Worked examples *)
(* ===================================================================== *)

Example split_two_tokens : split (strip (lit "  /fixoption   2 ")) = [lit "/fixoption"; lit "2"].
Proof. reflexivity. Qed.

Example split_blank : split (strip (lit "   ")) = [].
Proof. reflexivity. Qed.

Example split_unicode_space :
  split (lit "/tryoption" ++ [12288%N] ++ lit "1") = [lit "/tryoption"; lit "1"].
Proof. reflexivity. Qed.

Example str_int_samples :
  str_int 0 = lit "0" /\ str_int (-15) = lit "-15" /\ str_int 120 = lit "120".
Proof. repeat split; reflexivity. Qed.

Example confident_answer :
  g4f_response sample_env question initial_state
  = (Ret (VStr (lit "The answer to that question is four.")),
     mkState 1 None 0 1 [EvClient; EvCreate g4f_model question]).
Proof. reflexivity. Qed.

Example missing_body_is_reported :
  fst (g4f_response
         (scripted (Raise ValueError) (Ret (VStr (lit "Hm."))) (Ret VNone)
                   (Ret [ [ (lit "href", lit "x") ] ]) (Raise ValueError))
         [] initial_state)
  = Ret (VStr (lit "Error: 'body'")).
Proof. reflexivity. Qed.

Example first_run_of_a_process :
  reachable sample_env (Some (lit "7"))
    (after sample_env (Some (lit "7")) (CallOption (IdInt 7) (lit "/fixoption 2"))
       initial_state)
  /\ current_option
       (after sample_env (Some (lit "7")) (CallOption (IdInt 7) (lit "/fixoption 2"))
          initial_state) = 2.
Proof. split; [apply reachable_after, reachable_initial | reflexivity]. Qed.

(* ===================================================================== *)
(** * Traces: what a call adds to the log and to the counters *)
(* ===================================================================== *)

Lemma count_app (p : event -> bool) (a b : list event) :
  count p (a ++ b) = count p a + count p b.
Proof.
  unfold count. rewrite filter_app, length_app. apply Nat2Z.inj_add.
Qed.

Lemma count_nonneg (p : event -> bool) (l : list event) : 0 <= count p l.
Proof. unfold count. lia. Qed.

Ltac close_step :=
  simpl; repeat rewrite <- app_assoc; simpl;
  eexists; split; [reflexivity | unfold count; simpl; lia].

Lemma deepinfra_step (E : env) (history : list message) (st : state) :
  step_bounds st (snd (deepinfra_response E history st))
  /\ g4f_requests (snd (deepinfra_response E history st)) = g4f_requests st.
Proof.
  rewrite deepinfra_response_paths. unfold deepinfra_failed, step_bounds. cbv zeta.
  split_cases; (split; [close_step | reflexivity]).
Qed.

Lemma g4f_step (E : env) (history : list message) (st : state) :
  step_bounds st (snd (g4f_response E history st))
  /\ deepinfra_requests (snd (g4f_response E history st)) = deepinfra_requests st.
Proof.
  rewrite g4f_response_paths. unfold g4f_failed, step_bounds. cbv zeta.
  split_cases; (split; [close_step | reflexivity]).
Qed.

Lemma create_image_step (E : env) (encoded_prompt : pystr) (st : state) :
  step_bounds st (snd (create_image E encoded_prompt st))
  /\ deepinfra_requests (snd (create_image E encoded_prompt st)) = deepinfra_requests st
  /\ g4f_requests (snd (create_image E encoded_prompt st)) = g4f_requests st.
Proof.
  unfold create_image, step_bounds. run.
  split_cases; (split; [close_step | split; reflexivity]).
Qed.

Lemma quiet_step (st st' : state) :
  log st' = log st -> deepinfra_requests st' = deepinfra_requests st ->
  g4f_requests st' = g4f_requests st -> step_bounds st st'.
Proof.
  intros Hl Hd Hg. exists []. rewrite Hl, Hd, Hg, app_nil_r.
  split; [reflexivity | unfold count; simpl; lia].
Qed.

(** The five ways the Option Controller answers, each for every state:
    the answer depends on the caller and the command only. *)
Lemma option_cases (OWNER_ID : option pystr) (uid : user_id) (command : pystr) :
  (str_id uid <> str_env OWNER_ID
   /\ forall st, handle_option_command OWNER_ID uid command st
                 = (Ret refusal_message, st))
  \/ (str_id uid = str_env OWNER_ID
      /\ ((forall st, handle_option_command OWNER_ID uid command st
                      = (Ret usage_message, st))
          \/ (forall st, handle_option_command OWNER_ID uid command st
                         = (Ret invalid_option_message, st))
          \/ (exists value v,
                split (strip command) = [lit "/tryoption"; value]
                /\ In value option_texts /\ (v = 1 \/ v = 2)
                /\ forall st, handle_option_command OWNER_ID uid command st
                              = (Ret (temporary_message v),
                                 set_owner_temp_option (Some v) st))
          \/ (exists value v,
                split (strip command) = [lit "/fixoption"; value]
                /\ In value option_texts /\ (v = 1 \/ v = 2)
                /\ forall st, handle_option_command OWNER_ID uid command st
                              = (Ret (permanent_message v),
                                 set_owner_temp_option None (set_current_option v st))))).
Proof.
  destruct (list_eq_dec N.eq_dec (str_id uid) (str_env OWNER_ID)) as [Hid|Hid].
  2:{ left. split; [assumption | intro st; now apply option_refused]. }
  right. split; [assumption|].
  destruct (Nat.eq_dec (List.length (split (strip command))) 2) as [Hlen|Hlen].
  2:{ left. intro st. apply option_usage; auto. }
  destruct (in_list (hd [] (split (strip command))) [lit "/tryoption"; lit "/fixoption"])
    eqn:Hcmd.
  2:{ left. intro st. apply option_usage; auto. right. intro K.
      apply in_list_In in K. congruence. }
  destruct (in_list (nth 1 (split (strip command)) []) [lit "1"; lit "2"]) eqn:Hval.
  2:{ right. left. intro st. apply option_invalid; auto.
      - now apply in_list_In.
      - intro K. apply in_list_In in K. congruence. }
  right. right.
  apply in_list_In in Hcmd. apply in_list_In in Hval.
  destruct (split (strip command)) as [|cmd [|value [|c rest]]] eqn:Hparts;
    try discriminate.
  simpl in Hcmd, Hval.
  assert (Hv : exists v, (v = 1 \/ v = 2)
             /\ ((value = lit "1" /\ v = 1) \/ (value = lit "2" /\ v = 2))).
  { destruct Hval as [<-|[<-|[]]]; [exists 1 | exists 2]; auto. }
  destruct Hv as (v & Hv12 & Hv).
  assert (Hin : In value option_texts).
  { destruct Hv as [[-> _]|[-> _]]; simpl; auto. }
  destruct Hcmd as [<-|[<-|[]]]; [left | right]; exists value, v;
    (split; [reflexivity|]; split; [exact Hin|]; split; [exact Hv12|]);
    intro st;
    destruct (option_accepted OWNER_ID uid command _ value v st Hid Hparts Hv)
      as [Htry Hfix]; auto.
Qed.

(** Every call extends the log and moves the counters within the events
    it made. *)
Lemma after_step (E : env) (OWNER_ID : option pystr) (c : call) (st : state) :
  step_bounds st (after E OWNER_ID c st).
Proof.
  destruct c as [history|history|history uid|uid command|uid|encoded_prompt];
    simpl after.
  - apply deepinfra_step.
  - apply g4f_step.
  - rewrite get_ai_response_dispatch.
    destruct (optint_eqb _ 2); [apply g4f_step | apply deepinfra_step].
  - destruct (option_cases OWNER_ID uid command)
      as [[_ K]|[_ [K|[K|[(value & v & _ & _ & _ & K)|(value & v & _ & _ & _ & K)]]]]];
      rewrite K; apply quiet_step; reflexivity.
  - apply quiet_step; reflexivity.
  - apply create_image_step.
Qed.

(** Only the Option Controller writes the selections. *)
Lemma after_selection (E : env) (OWNER_ID : option pystr) (c : call) (st : state) :
  (forall uid command, c <> CallOption uid command) ->
  current_option (after E OWNER_ID c st) = current_option st
  /\ owner_temp_option (after E OWNER_ID c st) = owner_temp_option st.
Proof.
  intro H.
  destruct c as [history|history|history uid|uid command|uid|encoded_prompt];
    simpl after.
  - destruct (deepinfra_response_frame E history st) as (-> & -> & _). auto.
  - destruct (g4f_response_frame E history st) as (-> & -> & _). auto.
  - rewrite get_ai_response_dispatch. destruct (optint_eqb _ 2).
    + destruct (g4f_response_frame E history st) as (-> & -> & _). auto.
    + destruct (deepinfra_response_frame E history st) as (-> & -> & _). auto.
  - now elim (H uid command).
  - auto.
  - destruct (create_image_frame E encoded_prompt st) as (-> & -> & _). auto.
Qed.

(* ===================================================================== *)
(** * Properties of whole processes *)
(* ===================================================================== *)

(** X1.  In every state a process reaches from the initial one, the
    global selection is 1 or 2, the override is unset, 1 or 2 (so it is
    followed exactly when it is set), both counters are non-negative, and
    the router's choice for any caller is option 1 or option 2. *)
Theorem reachable_invariant (E : env) (OWNER_ID : option pystr) (st : state) :
  reachable E OWNER_ID st ->
  valid st
  /\ (truthy_optint (owner_temp_option st) = true <-> owner_temp_option st <> None)
  /\ forall uid,
       option_to_use OWNER_ID uid st = Some 1 \/ option_to_use OWNER_ID uid st = Some 2.
Proof.
  intro H. pose proof (reachable_valid E OWNER_ID st H) as Hv.
  split; [exact Hv|]. split.
  - rewrite (valid_truthy st Hv).
    destruct (owner_temp_option st); split; congruence.
  - intro uid. unfold option_to_use.
    destruct Hv as (Hc & Ht & _).
    destruct (owner_override_active OWNER_ID uid st) eqn:Ha.
    + unfold owner_override_active in Ha.
      apply andb_true_iff in Ha as [_ Ha].
      destruct Ht as [Ht|[Ht|Ht]]; rewrite Ht in *; simpl in Ha;
        [discriminate | now left | now right].
    + destruct Hc as [-> | ->]; [now left | now right].
Qed.

Lemma reachable_invariant_witness :
  let st := after sample_env (Some (lit "7")) (CallAi question (IdInt 7))
              (after sample_env (Some (lit "7"))
                 (CallOption (IdInt 7) (lit "/tryoption 2")) initial_state) in
  owner_temp_option st = Some 2
  /\ valid st
  /\ option_to_use (Some (lit "7")) (IdInt 8) st = Some 1
  /\ option_to_use (Some (lit "7")) (IdInt 7) st = Some 2.
Proof.
  intro st.
  assert (Hr : reachable sample_env (Some (lit "7")) st)
    by (apply reachable_after, reachable_after, reachable_initial).
  destruct (reachable_invariant sample_env (Some (lit "7")) st Hr) as (Hv & _ & _).
  split; [reflexivity|]. split; [exact Hv|]. split; reflexivity.
Defined.

(** X2.  Whatever calls a process makes from whatever state, the log
    only grows and the counters never decrease; the A counter grows by
    at most the POSTs made, the B counter by at least the searches made
    and at most the completions requested, and each call accounts for at
    most one POST, one count of B, and two completions. *)
Theorem process_counters (E : env) (OWNER_ID : option pystr) (cs : list call)
    (st : state) :
  let st' := after_all E OWNER_ID cs st in
  exists new,
    log st' = log st ++ new
    /\ 0 <= deepinfra_requests st' - deepinfra_requests st <= count is_post new
    /\ count is_post new <= Z.of_nat (List.length cs)
    /\ count is_search new <= g4f_requests st' - g4f_requests st
    /\ g4f_requests st' - g4f_requests st <= count is_completion new
    /\ g4f_requests st' - g4f_requests st <= Z.of_nat (List.length cs)
    /\ count is_completion new <= 2 * Z.of_nat (List.length cs).
Proof.
  revert st. induction cs as [|c cs IH]; intro st; simpl.
  - exists []. rewrite app_nil_r. unfold count. simpl.
    split; [reflexivity | lia].
  - destruct (after_step E OWNER_ID c st)
      as (new1 & Hl1 & Hp1 & Hc1 & Hs1 & Hd1 & Hg1 & Hg1' & Hg1'').
    destruct (IH (after E OWNER_ID c st))
      as (new2 & Hl2 & Hd2 & Hp2 & Hs2 & Hg2 & Hg2' & Hc2).
    exists (new1 ++ new2).
    unfold after_all in *. rewrite Hl2, Hl1, <- app_assoc.
    split; [reflexivity|].
    rewrite !count_app.
    pose proof (count_nonneg is_post new1). pose proof (count_nonneg is_post new2).
    pose proof (count_nonneg is_search new1).
    pose proof (count_nonneg is_completion new1).
    lia.
Qed.

Lemma routing_step (E : env) (OWNER_ID : option pystr) (history : list message)
    (uid : user_id) (st : state) :
  owner_temp_option st = None ->
  let st' := after E OWNER_ID (CallAi history uid) st in
  current_option st' = current_option st
  /\ owner_temp_option st' = None
  /\ if current_option st =? 2
     then deepinfra_requests st' = deepinfra_requests st
          /\ 0 <= g4f_requests st' - g4f_requests st <= 1
     else g4f_requests st' = g4f_requests st
          /\ 0 <= deepinfra_requests st' - deepinfra_requests st <= 1.
Proof.
  intros Ht st'. subst st'. simpl after.
  rewrite get_ai_response_dispatch, option_to_use_global by auto.
  simpl optint_eqb. destruct (current_option st =? 2).
  - destruct (g4f_response_frame E history st) as (-> & -> & -> & [->| ->]);
      repeat split; auto; lia.
  - destruct (deepinfra_response_frame E history st) as (-> & -> & -> & [->| ->]);
      repeat split; auto; lia.
Qed.

(** X3.  While the override is unset, any number of routing calls, by
    whatever callers, leaves both selections as they are and never moves
    the counter of the provider that is not selected; the selected
    provider's counter grows by at most one per call. *)
Theorem routing_moves_selected_counter (E : env) (OWNER_ID : option pystr)
    (l : list (list message * user_id)) (st : state) :
  owner_temp_option st = None ->
  let st' := after_all E OWNER_ID (routing_calls l) st in
  current_option st' = current_option st
  /\ owner_temp_option st' = None
  /\ if current_option st =? 2
     then deepinfra_requests st' = deepinfra_requests st
          /\ 0 <= g4f_requests st' - g4f_requests st <= Z.of_nat (List.length l)
     else g4f_requests st' = g4f_requests st
          /\ 0 <= deepinfra_requests st' - deepinfra_requests st
             <= Z.of_nat (List.length l).
Proof.
  revert st. induction l as [|[history uid] l IH]; intros st Ht st'; subst st'.
  - simpl. repeat split; auto. destruct (current_option st =? 2); split; lia.
  - change (after_all E OWNER_ID (routing_calls ((history, uid) :: l)) st)
      with (after_all E OWNER_ID (routing_calls l)
              (after E OWNER_ID (CallAi history uid) st)).
    destruct (routing_step E OWNER_ID history uid st Ht) as (Hc & Ht' & Hn).
    destruct (IH _ Ht') as (Hc2 & Ht2 & Hn2).
    rewrite Hc2, Hc. split; [reflexivity|]. split; [exact Ht2|].
    rewrite Hc in Hn2. simpl List.length. rewrite Nat2Z.inj_succ.
    destruct (current_option st =? 2); destruct Hn as [Hn Hn'], Hn2 as [Hn2 Hn2'];
      split; try congruence; lia.
Qed.

Lemma routing_moves_selected_counter_witness :
  let st := mkState 2 None 4 9 [] in
  let calls := [(question, IdInt 7); ([], IdNone); (question, IdStr (lit "x"))] in
  let st' := after_all unsure_env (Some (lit "7")) (routing_calls calls) st in
  deepinfra_requests st' = 4 /\ g4f_requests st' = 12 /\ current_option st' = 2.
Proof.
  intros st calls st'.
  destruct (routing_moves_selected_counter unsure_env (Some (lit "7")) calls st eq_refl)
    as (Hc & _ & Hn).
  change (current_option st =? 2) with true in Hn. destruct Hn as [Hd _].
  split; [exact Hd|]. split; [reflexivity | exact Hc].
Defined.

(** X4.  A call that changes the global selection or the override is an
    option command of a caller equal as text to the owner, whose two
    tokens are a command name and an option; no other call, and no other
    caller, ever changes them. *)
Theorem selection_changes_only_by_owner (E : env) (OWNER_ID : option pystr)
    (c : call) (st : state) :
  current_option (after E OWNER_ID c st) <> current_option st
  \/ owner_temp_option (after E OWNER_ID c st) <> owner_temp_option st ->
  exists uid command cmd value,
    c = CallOption uid command
    /\ str_id uid = str_env OWNER_ID
    /\ split command = [cmd; value]
    /\ In cmd command_names
    /\ In value option_texts.
Proof.
  intro H.
  destruct c as [history|history|history uid|uid command|uid|encoded_prompt].
  1-3, 5-6:
    match goal with
    | |- context [?c = CallOption _ _] =>
        destruct (after_selection E OWNER_ID c st) as [Hc Ht];
        [discriminate | rewrite Hc, Ht in H; destruct H as [H|H]; now elim H]
    end.
  simpl after in H.
  destruct (option_cases OWNER_ID uid command)
    as [[_ K]|[Hid [K|[K|[(value & v & Hp & Hin & _ & K)|(value & v & Hp & Hin & _ & K)]]]]].
  1-3: rewrite K in H; simpl in H; destruct H as [H|H]; now elim H.
  - exists uid, command, (lit "/tryoption"), value.
    rewrite split_strip in Hp. repeat split; auto. simpl. auto.
  - exists uid, command, (lit "/fixoption"), value.
    rewrite split_strip in Hp. repeat split; auto. simpl. auto.
Qed.

Lemma selection_changes_only_by_owner_witness :
  exists uid command cmd value,
    CallOption (IdInt 7) (lit " /fixoption  2") = CallOption uid command
    /\ str_id uid = str_env (Some (lit "7"))
    /\ split command = [cmd; value]
    /\ In cmd command_names
    /\ In value option_texts.
Proof.
  apply (selection_changes_only_by_owner sample_env (Some (lit "7"))
           (CallOption (IdInt 7) (lit " /fixoption  2")) initial_state).
  left. vm_compute. discriminate.
Defined.

(* ===================================================================== *)
(** * Further properties of the Option Controller *)
(* ===================================================================== *)

(** X5.  Whoever calls it with whatever command, the Option Controller
    returns a reply (it never raises), leaves both usage counters as
    they are, and has no interaction with the outside. *)
Theorem option_controller_quiet (OWNER_ID : option pystr) (uid : user_id)
    (command : pystr) (st : state) :
  let r := handle_option_command OWNER_ID uid command st in
  (exists reply, fst r = Ret reply)
  /\ deepinfra_requests (snd r) = deepinfra_requests st
  /\ g4f_requests (snd r) = g4f_requests st
  /\ log (snd r) = log st.
Proof.
  intro r. subst r.
  destruct (option_cases OWNER_ID uid command)
    as [[_ K]|[_ [K|[K|[(value & v & _ & _ & _ & K)|(value & v & _ & _ & _ & K)]]]]];
    rewrite K; simpl; repeat split; eexists; reflexivity.
Qed.

(** X6.  The Option Controller reads its command through its
    whitespace-separated tokens only: two commands with the same tokens,
    however they are padded or spaced, get the same reply and have the
    same effect. *)
Theorem option_controller_whitespace (OWNER_ID : option pystr) (uid : user_id)
    (command command' : pystr) (st : state) :
  split command = split command' ->
  handle_option_command OWNER_ID uid command st
  = handle_option_command OWNER_ID uid command' st.
Proof.
  intro H. unfold handle_option_command.
  rewrite !split_strip, H. reflexivity.
Qed.

Lemma option_controller_whitespace_witness :
  let padded := [9%N] ++ lit "/fixoption" ++ [160%N; 32%N] ++ lit "2" ++ nl in
  split (lit "/fixoption 2") = split padded
  /\ handle_option_command (Some (lit "7")) (IdInt 7) padded initial_state
     = (Ret (permanent_message 2), mkState 2 None 0 0 []).
Proof.
  intro padded. split; [reflexivity|].
  rewrite <- (option_controller_whitespace (Some (lit "7")) (IdInt 7)
                (lit "/fixoption 2") padded initial_state eq_refl).
  reflexivity.
Defined.

(** X7.  Repeating an option command changes nothing more: the second
    run of the same command by the same caller returns the same reply
    and leaves the state the first run produced. *)
Theorem option_controller_idempotent (OWNER_ID : option pystr) (uid : user_id)
    (command : pystr) (st : state) :
  let first := handle_option_command OWNER_ID uid command st in
  handle_option_command OWNER_ID uid command (snd first) = (fst first, snd first).
Proof.
  intro first. subst first.
  destruct (option_cases OWNER_ID uid command)
    as [[_ K]|[_ [K|[K|[(value & v & _ & _ & _ & K)|(value & v & _ & _ & _ & K)]]]]];
    rewrite (K st); simpl; rewrite K; reflexivity.
Qed.

(* ===================================================================== *)
(** * Further properties of the providers and the router *)
(* ===================================================================== *)

Lemma content_of_shape (data c : value) :
  content_of data = Ret c <-> completion_shape data c.
Proof.
  unfold content_of, completion_shape. split.
  - intro H.
    destruct data as [| | | | |l|items]; try discriminate. simpl in H.
    destruct (dict_get (lit "choices") items) as [choices|] eqn:H1; [|discriminate].
    destruct choices as [| | | |s|l|d]; try discriminate.
    + destruct s; discriminate.
    + destruct l as [|choice rest]; [discriminate|]. simpl in H.
      destruct choice as [| | | | |l'|choice]; try discriminate. simpl in H.
      destruct (dict_get (lit "message") choice) as [msg|] eqn:H2; [|discriminate].
      destruct msg as [| | | | |l'|msg]; try discriminate. simpl in H.
      destruct (dict_get (lit "content") msg) as [c'|] eqn:H3; [|discriminate].
      inversion H. subst c'.
      exists items, choice, rest, msg. auto.
  - intros (items & choice & rest & msg & -> & H1 & H2 & H3).
    simpl. rewrite H1. simpl. rewrite H2. simpl. rewrite H3. reflexivity.
Qed.

(** X8.  Provider Client A always returns (it never raises) and makes
    exactly one request, the POST of the fixed model with the given
    history; besides it the call leaves at most one logged line, and
    that line appears exactly when the apology is returned because a
    step of the exchange raised. *)
Theorem deepinfra_one_post (E : env) (history : list message) (st : state) :
  let r := deepinfra_response E history st in
  let sent := EvPost deepinfra_url deepinfra_headers (deepinfra_payload history) in
  (exists v, fst r = Ret v)
  /\ ((log (snd r) = log st ++ [sent]
       /\ exists response data,
            requests_post E (log st) deepinfra_url deepinfra_headers
              (deepinfra_payload history) = Ret response
            /\ json response = Ret data
            /\ content_of data = fst r)
      \/ exists e,
           fst r = Ret (VStr deepinfra_apology)
           /\ log (snd r)
              = log st ++ [sent; EvPrint (lit "DeepInfra error: " ++ str_exn E e)]).
Proof.
  intros r sent. subst r sent. rewrite deepinfra_response_paths.
  unfold deepinfra_failed. cbv zeta.
  destruct (requests_post E (log st) deepinfra_url deepinfra_headers
              (deepinfra_payload history)) as [response|e] eqn:H1.
  2:{ split; [eexists; reflexivity|]. right. exists e. simpl.
      rewrite <- app_assoc. auto. }
  destruct (json response) as [data|e] eqn:H2.
  2:{ split; [eexists; reflexivity|]. right. exists e. simpl.
      rewrite <- app_assoc. auto. }
  destruct (content_of data) as [c|e] eqn:H3.
  - split; [eexists; reflexivity|]. left. simpl. split; [reflexivity|].
    exists response, data. auto.
  - split; [eexists; reflexivity|]. right. exists e. simpl.
    rewrite <- app_assoc. auto.
Qed.

(** X9.  When the POST returns a body that is JSON, Provider Client A
    returns a content without logging an error exactly when the body has
    the shape {"choices": [{"message": {"content": c}}, ...]}, and then
    the content returned is that c, whatever kind of value it is. *)
Theorem deepinfra_content_shape (E : env) (history : list message) (st : state)
    (response : response) (data : value) :
  requests_post E (log st) deepinfra_url deepinfra_headers (deepinfra_payload history)
  = Ret response ->
  json response = Ret data ->
  forall c,
    (fst (deepinfra_response E history st) = Ret c
     /\ log (snd (deepinfra_response E history st))
        = log st ++ [EvPost deepinfra_url deepinfra_headers (deepinfra_payload history)])
    <-> completion_shape data c.
Proof.
  intros H1 H2 c. rewrite <- content_of_shape.
  rewrite deepinfra_response_paths. cbv zeta. rewrite H1, H2.
  unfold deepinfra_failed.
  destruct (content_of data) as [c'|e]; simpl.
  - split; [now intros [H _] | intro H; split; [exact H | reflexivity]].
  - split; [|discriminate].
    intros [_ H]. rewrite <- app_assoc in H. apply app_inv_head in H.
    discriminate.
Qed.

Lemma deepinfra_content_shape_witness :
  completion_shape (completion_body (lit "Four.")) (VStr (lit "Four."))
  /\ fst (deepinfra_response sample_env question initial_state) = Ret (VStr (lit "Four."))
  /\ ~ completion_shape (VDict [ (lit "choices", VStr (lit "Four.")) ])
         (VStr (lit "F")).
Proof.
  assert (Hs : completion_shape (completion_body (lit "Four.")) (VStr (lit "Four."))).
  { exists [ (lit "choices",
              VList [ VDict [ (lit "message",
                               VDict [ (lit "content", VStr (lit "Four.")) ]) ] ]) ],
           [ (lit "message", VDict [ (lit "content", VStr (lit "Four.")) ]) ],
           [],
           [ (lit "content", VStr (lit "Four.")) ].
    repeat split. }
  split; [exact Hs|]. split.
  - apply (deepinfra_content_shape sample_env question initial_state
             (mkResponse 200 (Ret (completion_body (lit "Four."))))
             (completion_body (lit "Four.")) eq_refl eq_refl (VStr (lit "Four."))).
    exact Hs.
  - intro H.
    apply (deepinfra_content_shape
             (scripted (Ret (mkResponse 200
                               (Ret (VDict [ (lit "choices", VStr (lit "Four.")) ]))))
                       (Ret VNone) (Ret VNone) (Ret []) (Raise ValueError))
             question initial_state
             (mkResponse 200 (Ret (VDict [ (lit "choices", VStr (lit "Four.")) ])))
             (VDict [ (lit "choices", VStr (lit "Four.")) ]) eq_refl eq_refl
             (VStr (lit "F"))) in H.
    destruct H as [H _]. vm_compute in H. discriminate H.
Defined.

(** X10.  When the history is not empty and its last message has no
    "content", Provider Client B sends nothing: it returns the error
    text of the missing key, makes no completion request and no search,
    and leaves its counter as it was. *)
Theorem g4f_missing_content (E : env) (history : list message) (st : state) :
  Client E (log st) = Ret tt ->
  history <> [] ->
  dict_get (lit "content") (last history []) = None ->
  let e := KeyError (VStr (lit "content")) in
  g4f_response E history st
  = (Ret (VStr (lit "Error: " ++ str_exn E e)),
     mkState (current_option st) (owner_temp_option st) (deepinfra_requests st)
             (g4f_requests st)
             (log st ++ [EvClient; EvPrint (lit "g4f error: " ++ str_exn E e)])).
Proof.
  intros HC Hne Hk e. subst e. rewrite g4f_response_paths. cbv zeta.
  rewrite HC. unfold prompt_of, message_getitem.
  destruct history as [|m history]; [congruence|].
  rewrite Hk. unfold g4f_failed, emit. simpl.
  rewrite <- app_assoc. reflexivity.
Qed.

Lemma g4f_missing_content_witness :
  let history := question ++ [ [ (lit "role", lit "user") ] ] in
  fst (g4f_response sample_env history initial_state)
  = Ret (VStr (lit "Error: 'content'"))
  /\ g4f_requests (snd (g4f_response sample_env history initial_state)) = 0.
Proof.
  intro history.
  rewrite (g4f_missing_content sample_env history initial_state eq_refl).
  - split; reflexivity.
  - discriminate.
  - reflexivity.
Defined.

(** X11.  When the first completion is neither text nor a container
    (None, a boolean, a number), the confidence check itself raises:
    Provider Client B returns the error text of the type error after
    having counted the request, and makes no search and no retry. *)
Theorem g4f_not_text (E : env) (history : list message) (st : state)
    (prompt : pystr) (response : value) :
  Client E (log st) = Ret tt ->
  prompt_of history = Ret prompt ->
  completions_create E (log (emit EvClient st)) g4f_model history = Ret response ->
  is_scalar response = true ->
  g4f_response E history st
  = (Ret (VStr (lit "Error: " ++ str_exn E TypeError)),
     mkState (current_option st) (owner_temp_option st) (deepinfra_requests st)
             (g4f_requests st + 1)
             (log st ++ [EvClient; EvCreate g4f_model history;
                         EvPrint (lit "g4f error: " ++ str_exn E TypeError)])).
Proof.
  intros HC HP H1 Hs. rewrite g4f_response_paths. cbv zeta.
  rewrite HC, HP, H1.
  assert (Hl : low_confidence response = Raise TypeError)
    by (destruct response; try discriminate; reflexivity).
  rewrite Hl. unfold g4f_failed, emit. simpl.
  repeat rewrite <- app_assoc. reflexivity.
Qed.

Lemma g4f_not_text_witness :
  let E := scripted (Raise ValueError) (Ret VNone) (Ret (VStr (lit "unused")))
             (Ret []) (Raise ValueError) in
  fst (g4f_response E question initial_state)
  = Ret (VStr (lit "Error: unsupported operand"))
  /\ g4f_requests (snd (g4f_response E question initial_state)) = 1.
Proof.
  intro E.
  rewrite (g4f_not_text E question initial_state (lit "What is 2+2?") VNone
             eq_refl eq_refl eq_refl eq_refl).
  split; reflexivity.
Defined.

Lemma bodies_of_missing (hits : list message) :
  (exists r, In r hits /\ dict_get (lit "body") r = None) ->
  bodies_of hits = Raise (KeyError (VStr (lit "body"))).
Proof.
  induction hits as [|h hits IH]; intros (r & Hin & Hr); [destruct Hin|].
  simpl. unfold message_getitem.
  destruct (dict_get (lit "body") h) as [b|] eqn:Hb; [|reflexivity].
  destruct Hin as [->|Hin]; [congruence|].
  rewrite IH; [reflexivity | now exists r].
Qed.

(** X12.  When the first completion is low-confidence and one of the
    first three search hits has no "body", Provider Client B gives up the
    retry: it returns the error text of the missing key, with the first
    request counted, one search made and no second completion. *)
Theorem g4f_hit_without_body (E : env) (history : list message) (st : state)
    (prompt first : pystr) (hits : list message) :
  Client E (log st) = Ret tt ->
  prompt_of history = Ret prompt ->
  completions_create E (log (emit EvClient st)) g4f_model history = Ret (VStr first) ->
  contains (lit "I don't know") first = true \/ len first < 20 ->
  DDGS_text E
    (log (set_g4f_requests (g4f_requests st + 1)
            (emit (EvCreate g4f_model history) (emit EvClient st)))) prompt
  = Ret hits ->
  (exists r, In r (firstn 3 hits) /\ dict_get (lit "body") r = None) ->
  let e := KeyError (VStr (lit "body")) in
  g4f_response E history st
  = (Ret (VStr (lit "Error: " ++ str_exn E e)),
     mkState (current_option st) (owner_temp_option st) (deepinfra_requests st)
             (g4f_requests st + 1)
             (log st ++ [EvClient; EvCreate g4f_model history; EvSearch prompt;
                         EvPrint (lit "g4f error: " ++ str_exn E e)])).
Proof.
  intros HC HP H1 Hlow HS Hmiss e. subst e.
  assert (Hl : contains (lit "I don't know") first || (len first <? 20) = true).
  { destruct Hlow as [-> | Hlen]; [reflexivity|].
    apply Z.ltb_lt in Hlen. rewrite Hlen. apply orb_true_r. }
  rewrite g4f_response_paths. cbv zeta.
  rewrite HC, HP, H1, low_confidence_str, Hl, HS, (bodies_of_missing _ Hmiss).
  unfold g4f_failed, emit. simpl. repeat rewrite <- app_assoc. reflexivity.
Qed.

Lemma g4f_hit_without_body_witness :
  let E := scripted (Raise ValueError) (Ret (VStr (lit "Not sure.")))
             (Ret (VStr (lit "unused")))
             (Ret [ [ (lit "body", lit "first") ]; [ (lit "title", lit "second") ] ])
             (Raise ValueError) in
  fst (g4f_response E question initial_state) = Ret (VStr (lit "Error: 'body'"))
  /\ g4f_requests (snd (g4f_response E question initial_state)) = 1.
Proof.
  intro E.
  rewrite (g4f_hit_without_body E question initial_state (lit "What is 2+2?")
             (lit "Not sure.")
             [ [ (lit "body", lit "first") ]; [ (lit "title", lit "second") ] ]
             eq_refl eq_refl eq_refl).
  - split; reflexivity.
  - right. vm_compute. reflexivity.
  - reflexivity.
  - exists [ (lit "title", lit "second") ]. split; [simpl; auto | reflexivity].
Defined.

(** X13.  Whatever the caller, the history and the state, the router
    returns (it never raises), leaves both selections as they are, and
    never moves the counter of the provider it did not choose; the
    chosen provider's counter grows by at most one. *)
Theorem router_returns (E : env) (OWNER_ID : option pystr) (history : list message)
    (uid : user_id) (st : state) :
  let r := get_ai_response E OWNER_ID history uid st in
  (exists v, fst r = Ret v)
  /\ current_option (snd r) = current_option st
  /\ owner_temp_option (snd r) = owner_temp_option st
  /\ if optint_eqb (option_to_use OWNER_ID uid st) 2
     then deepinfra_requests (snd r) = deepinfra_requests st
          /\ 0 <= g4f_requests (snd r) - g4f_requests st <= 1
     else g4f_requests (snd r) = g4f_requests st
          /\ 0 <= deepinfra_requests (snd r) - deepinfra_requests st <= 1.
Proof.
  intro r. subst r. rewrite get_ai_response_dispatch.
  destruct (optint_eqb (option_to_use OWNER_ID uid st) 2).
  - split; [apply g4f_returns|].
    destruct (g4f_response_frame E history st) as (-> & -> & -> & [->| ->]);
      repeat split; lia.
  - split; [apply deepinfra_returns|].
    destruct (deepinfra_response_frame E history st) as (-> & -> & -> & [->| ->]);
      repeat split; lia.
Qed.

(* ===================================================================== *)
(** * Further properties of the Status Reporter and the Image Proxy *)
(* ===================================================================== *)

(** X14.  What the Status Reporter tells a caller that differs as text
    from the owner does not depend on the override or on who that caller
    is: any two such callers get the same report, whatever the override
    is set to. *)
Theorem status_hides_override (OWNER_ID : option pystr) (uid uid' : user_id)
    (o : option Z) (st : state) :
  str_id uid <> str_env OWNER_ID ->
  str_id uid' <> str_env OWNER_ID ->
  fst (handle_status_command OWNER_ID uid (set_owner_temp_option o st))
  = fst (handle_status_command OWNER_ID uid' st).
Proof.
  intros H H'. rewrite !status_text. simpl fst.
  rewrite !current_line_global by (left; assumption). reflexivity.
Qed.

Lemma status_hides_override_witness :
  fst (handle_status_command (Some (lit "7")) (IdInt 8) (mkState 1 (Some 2) 3 5 []))
  = fst (handle_status_command (Some (lit "7")) IdNone (mkState 1 None 3 5 [])).
Proof.
  apply (status_hides_override (Some (lit "7")) (IdInt 8) IdNone (Some 2)
           (mkState 1 None 3 5 [])); vm_compute; discriminate.
Defined.

(** X15.  In a valid state, for a caller that is non-empty (non-zero),
    the option on the last line of the status report is the option the
    router uses for that caller: the two agree on whether the override
    applies. *)
Theorem status_matches_router (E : env) (OWNER_ID : option pystr) (uid : user_id)
    (history : list message) (st : state) :
  valid st ->
  truthy_id uid = true ->
  exists report v,
    handle_status_command OWNER_ID uid st = (Ret report, st)
    /\ (last (lines report) [] = lit "Current Model: Option " ++ str_int v
        \/ last (lines report) []
           = lit "Current Model: Option " ++ str_int v ++ lit " (temporary for owner)")
    /\ get_ai_response E OWNER_ID history uid st
       = if v =? 2 then g4f_response E history st else deepinfra_response E history st.
Proof.
  intros Hv Ht.
  exists (join nl (report_lines (deepinfra_requests st) (g4f_requests st)
                     (current_line OWNER_ID uid st))).
  destruct (list_eq_dec N.eq_dec (str_id uid) (str_env OWNER_ID)) as [Hid|Hid].
  - destruct (owner_temp_option st) as [v|] eqn:Hs.
    + exists v. split; [apply status_text|]. rewrite status_lines. split.
      * right. simpl last. now apply current_line_override.
      * rewrite get_ai_response_dispatch, (option_to_use_override _ _ _ v) by assumption.
        reflexivity.
    + exists (current_option st). split; [apply status_text|].
      rewrite status_lines. split.
      * left. simpl last. apply current_line_global. now right.
      * rewrite get_ai_response_dispatch, option_to_use_global by auto.
        reflexivity.
  - exists (current_option st). split; [apply status_text|].
    rewrite status_lines. split.
    + left. simpl last. apply current_line_global. now left.
    + rewrite get_ai_response_dispatch, option_to_use_global by auto.
      reflexivity.
Qed.

Lemma status_matches_router_witness :
  let st := mkState 1 (Some 2) 3 5 [] in
  exists report v,
    handle_status_command (Some (lit "7")) (IdInt 7) st = (Ret report, st)
    /\ (last (lines report) [] = lit "Current Model: Option " ++ str_int v
        \/ last (lines report) []
           = lit "Current Model: Option " ++ str_int v ++ lit " (temporary for owner)")
    /\ get_ai_response sample_env (Some (lit "7")) question (IdInt 7) st
       = if v =? 2 then g4f_response sample_env question st
         else deepinfra_response sample_env question st.
Proof.
  intro st.
  apply (status_matches_router sample_env (Some (lit "7")) (IdInt 7) question st).
  - unfold valid. simpl. intuition lia.
  - reflexivity.
Defined.

(** X16.  The Image Proxy makes one GET of "/ai/image/?prompt=" followed
    by the prompt as given.  A transport error is logged as a request
    error; a status outside 2xx is logged as an HTTP error, before the
    body is looked at; a body without "image" is logged as an unexpected
    error; and when an image is returned nothing is logged besides the
    GET. *)
Theorem image_proxy_trace (E : env) (encoded_prompt : pystr) (st : state) :
  let path := lit "/ai/image/?prompt=" ++ encoded_prompt in
  let answer := cl_get E (log st) path in
  let r := create_image E encoded_prompt st in
  (forall m,
      answer = Raise (RequestError m) ->
      log (snd r)
      = log st ++ [EvGet path;
                   EvPrint (lit "Request error occurred: "
                              ++ str_exn E (RequestError m))])
  /\ (forall response,
        answer = Ret response -> ~ (200 <= status_code response <= 299) ->
        log (snd r)
        = log st ++ [EvGet path;
                     EvPrint (lit "HTTP error occurred: "
                                ++ str_exn E (HTTPStatusError (status_code response)))])
  /\ (forall response data e,
        answer = Ret response -> 200 <= status_code response <= 299 ->
        json response = Ret data ->
        getitem_key data (lit "image") = Raise e ->
        log (snd r)
        = log st ++ [EvGet path;
                     EvPrint (lit "An unexpected error occurred: " ++ str_exn E e)])
  /\ (forall image, fst r = Ret (Some image) -> log (snd r) = log st ++ [EvGet path]).
Proof.
  intros path answer r. subst path answer r. unfold create_image. run.
  repeat split.
  - intros m H. rewrite H. simpl. now rewrite <- app_assoc.
  - intros response H Hs. rewrite H, (raise_for_status_error _ Hs). simpl.
    now rewrite <- app_assoc.
  - intros response data e H Hs Hj Hi.
    rewrite H, (raise_for_status_ok _ Hs), Hj, Hi.
    assert (He : e = TypeError \/ exists k, e = KeyError k).
    { destruct data; simpl in Hi; try (inversion Hi; now left).
      destruct (dict_get _ _); inversion Hi. right. eexists. reflexivity. }
    destruct He as [->|[k ->]]; simpl; now rewrite <- app_assoc.
  - intro image. split_cases; intro H; try discriminate H; reflexivity.
Qed.

Lemma image_proxy_trace_witness :
  let missing := mkResponse 404 (Ret (VDict [ (lit "image", VStr (lit "aGk=")) ])) in
  let empty := mkResponse 200 (Ret (VDict [ (lit "error", VStr (lit "busy")) ])) in
  log (snd (create_image (image_env (Ret missing)) (lit "cat") initial_state))
  = [ EvGet (lit "/ai/image/?prompt=cat");
      EvPrint (lit "HTTP error occurred: status 404") ]
  /\ log (snd (create_image (image_env (Ret empty)) (lit "cat") initial_state))
     = [ EvGet (lit "/ai/image/?prompt=cat");
         EvPrint (lit "An unexpected error occurred: 'image'") ]
  /\ log (snd (create_image (image_env (Raise (RequestError (lit "timed out"))))
                 (lit "cat") initial_state))
     = [ EvGet (lit "/ai/image/?prompt=cat");
         EvPrint (lit "Request error occurred: timed out") ]
  /\ log (snd (create_image sample_env (lit "cat") initial_state))
     = [ EvGet (lit "/ai/image/?prompt=cat") ].
Proof.
  intros missing empty.
  split; [|split; [|split]].
  - destruct (image_proxy_trace (image_env (Ret missing)) (lit "cat") initial_state)
      as (_ & H & _).
    apply (H missing); [reflexivity | simpl; lia].
  - destruct (image_proxy_trace (image_env (Ret empty)) (lit "cat") initial_state)
      as (_ & _ & H & _).
    apply (H empty (VDict [ (lit "error", VStr (lit "busy")) ])
             (KeyError (VStr (lit "image")))); try reflexivity.
    simpl. lia.
  - destruct (image_proxy_trace (image_env (Raise (RequestError (lit "timed out"))))
                (lit "cat") initial_state) as (H & _).
    apply (H (lit "timed out")). reflexivity.
  - destruct (image_proxy_trace sample_env (lit "cat") initial_state)
      as (_ & _ & _ & H).
    apply (H (mkBytesIO [Byte.x68; Byte.x69])). reflexivity.
Defined.

Lemma lit_inj (a b : string) : lit a = lit b -> a = b.
Proof.
  unfold lit. revert b. induction a as [|x a IH]; destruct b as [|y b]; simpl;
    intro H; try discriminate; [reflexivity|].
  inversion H as [[Hx Hr]]. f_equal; [|now apply IH].
  rewrite <- (ascii_N_embedding x), <- (ascii_N_embedding y). now rewrite Hx.
Qed.

(** [str] of an [int] tells the integer. *)
Lemma str_int_inj (a b : Z) : str_int a = str_int b -> a = b.
Proof.
  unfold str_int. intro H. apply lit_inj in H.
  apply DecimalZ.to_int_inj.
  assert (K : forall z, NilZero.int_of_string (NilZero.string_of_int (Z.to_int z))
                        = Some (Z.to_int z)).
  { intro z. apply NilZero.isi; destruct z; simpl; try discriminate;
      intro E; inversion E as [E'];
      now apply DecimalPos.Unsigned.to_uint_nonnil in E'. }
  pose proof (K a) as Ka. rewrite H, K in Ka. now inversion Ka.
Qed.

(** X17.  The status report tells both counters: two reports that are
    the same text, for whatever callers and states, were made with the
    same Provider-A counter and the same Provider-B counter. *)
Theorem status_tells_counters (OWNER_ID : option pystr) (uid uid' : user_id)
    (st st' : state) :
  fst (handle_status_command OWNER_ID uid st)
  = fst (handle_status_command OWNER_ID uid' st') ->
  deepinfra_requests st = deepinfra_requests st'
  /\ g4f_requests st = g4f_requests st'.
Proof.
  rewrite !status_text. cbn [fst]. intro H.
  assert (H' : lines (join nl (report_lines (deepinfra_requests st) (g4f_requests st)
                                 (current_line OWNER_ID uid st)))
               = lines (join nl (report_lines (deepinfra_requests st')
                                   (g4f_requests st')
                                   (current_line OWNER_ID uid' st'))))
    by congruence.
  rewrite !status_lines in H'.
  assert (Ha : nth_error (report_lines (deepinfra_requests st) (g4f_requests st)
                            (current_line OWNER_ID uid st)) 3
               = nth_error (report_lines (deepinfra_requests st') (g4f_requests st')
                              (current_line OWNER_ID uid' st')) 3)
    by now rewrite H'.
  assert (Hb : nth_error (report_lines (deepinfra_requests st) (g4f_requests st)
                            (current_line OWNER_ID uid st)) 6
               = nth_error (report_lines (deepinfra_requests st') (g4f_requests st')
                              (current_line OWNER_ID uid' st')) 6)
    by now rewrite H'.
  cbn [report_lines nth_error] in Ha, Hb.
  injection Ha as Ha. injection Hb as Hb.
  split; now apply str_int_inj.
Qed.

Lemma status_tells_counters_witness :
  let st := mkState 1 (Some 2) 3 5 [] in
  let st' := mkState 1 None 3 5 [EvClient] in
  fst (handle_status_command (Some (lit "7")) (IdInt 8) st)
  = fst (handle_status_command (Some (lit "7")) (IdInt 7) st')
  /\ deepinfra_requests st = deepinfra_requests st'
  /\ g4f_requests st = g4f_requests st'.
Proof.
  intros st st'.
  assert (H : fst (handle_status_command (Some (lit "7")) (IdInt 8) st)
              = fst (handle_status_command (Some (lit "7")) (IdInt 7) st'))
    by reflexivity.
  split; [exact H|].
  exact (status_tells_counters (Some (lit "7")) (IdInt 8) (IdInt 7) st st' H).
Defined.

(** X18.  A process in which every option command comes from a caller
    that differs as text from the owner, whatever else it calls and
    however often, ends with the global selection and the override it
    started with. *)
Theorem strangers_change_nothing (E : env) (OWNER_ID : option pystr)
    (cs : list call) (st : state) :
  Forall (unprivileged OWNER_ID) cs ->
  current_option (after_all E OWNER_ID cs st) = current_option st
  /\ owner_temp_option (after_all E OWNER_ID cs st) = owner_temp_option st.
Proof.
  intro H. revert st. induction H as [|c cs Hc _ IH]; intro st; [now split|].
  change (after_all E OWNER_ID (c :: cs) st)
    with (after_all E OWNER_ID cs (after E OWNER_ID c st)).
  destruct (IH (after E OWNER_ID c st)) as [-> ->].
  destruct c as [history|history|history uid|uid command|uid|encoded_prompt];
    try (apply after_selection; discriminate).
  simpl in Hc. simpl after. rewrite (option_refused _ _ _ _ Hc). now split.
Qed.

Lemma strangers_change_nothing_witness :
  let cs := [ CallOption (IdInt 8) (lit "/fixoption 2");
              CallAi question (IdInt 8);
              CallOption IdNone (lit "/tryoption 2");
              CallStatus (IdInt 8);
              CallImage (lit "cat") ] in
  let st := mkState 1 (Some 1) 0 0 [] in
  Forall (unprivileged (Some (lit "7"))) cs
  /\ current_option (after_all sample_env (Some (lit "7")) cs st) = 1
  /\ owner_temp_option (after_all sample_env (Some (lit "7")) cs st) = Some 1.
Proof.
  intros cs st.
  assert (H : Forall (unprivileged (Some (lit "7"))) cs).
  { repeat constructor; vm_compute; discriminate. }
  split; [exact H|].
  exact (strangers_change_nothing sample_env (Some (lit "7")) cs st H).
Defined.
